(** * Segmentation engine: a shallow embedding of [analysis/segmentation.py]

    The development follows the pipeline of the source file:
    [prepare_segment], [choose_factor_components], [pick_cluster_count],
    [cluster_factors], [summarize_clusters] and the driver
    [build_segment_outputs].

    Conventions.
    - Python integers are [Z]; lengths are [nat] and are injected with
      [Z.of_nat] where the source does arithmetic on them.
    - A float64 that may be missing is [option Q]: [None] is NaN, the
      value pandas uses for a missing number; finite floats are modelled
      as exact rationals.  Python's [round(x, 2)], which works on the
      float64 itself, is a [Variable] of the summarizer.
    - Strings are [string] (sequences of bytes); case mapping,
      character classes and whitespace are the ASCII ones, which are
      Python's on ASCII strings only: statements about the result of
      [upper], [strip] or [slugify] carry that restriction.
    - The fitted models of scikit-learn (scaler + factor analysis,
      k-means, silhouette) are not part of the repository: they are
      [Variable]s of the section that embeds the code calling them. *)

From Stdlib Require Import String Ascii DecimalString List ZArith QArith Qround Bool Lia Lqa.
From Stdlib Require Import Sorting.Sorted Permutation.
Import ListNotations.

Set Implicit Arguments.

(* ================================================================== *)
(** ** Numbers *)

Module Num.

(** A float64 column cell: [None] is NaN. *)
Definition float := option Q.

(** [a > b] on floats that are numbers. *)
Definition Qgtb (a b : Q) : bool := negb (Qle_bool a b).

Definition Qsum (l : list Q) : Q := fold_right Qplus 0%Q l.

Definition Qlen (l : list Q) : Q := inject_Z (Z.of_nat (length l)).

(** [Series.mean()] / [ndarray.mean()] over the numbers present:
    NaN when there is none. *)
Definition mean (l : list Q) : float :=
  match l with
  | [] => None
  | _ => Some (Qsum l / Qlen l)%Q
  end.

(** The values that are present in a column ([skipna=True]). *)
Fixpoint present (A : Type) (l : list (option A)) : list A :=
  match l with
  | [] => []
  | Some q :: r => q :: present r
  | None :: r => present r
  end.

Definition mean_skipna (l : list float) : float := mean (present l).

(** Round half to even to an integer ([rint]). *)
Definition rint (q : Q) : Z :=
  let f := Qfloor q in
  let r := (q - inject_Z f)%Q in
  match (r ?= 1 # 2)%Q with
  | Lt => f
  | Gt => (f + 1)%Z
  | Eq => if Z.even f then f else (f + 1)%Z
  end.

(** The nearest hundredth of a rational, ties to even: a stand-in for
    Python's [round(x, 2)] in the sample runs.  The rounding of the
    code works on float64 and is a parameter of the summarizer. *)
Definition round2 (q : Q) : Q := Qmake (rint (q * 100)) 100.

End Num.
Import Num.

(* ================================================================== *)
(** ** Factor matrices *)

(** A two-dimensional [ndarray] of finite floats: [shape1] columns and
    one inner list per row. *)
Record ndarray := mk_ndarray {
  shape1 : nat;
  rows : list (list Q)
}.

Definition shape0 (a : ndarray) : nat := length (rows a).

(** [a[:, j]] *)
Definition column (a : ndarray) (j : nat) : list Q :=
  map (fun r => nth j r 0%Q) (rows a).

(** [a.mean(axis=0, keepdims=True)]: one row holding the mean of every
    column. *)
Definition mean_axis0 (a : ndarray) : list (list float) :=
  [ map (fun j => mean (column a j)) (seq 0 (shape1 a)) ].

(** [len(set(labels))] *)
Definition n_distinct (labels : list Z) : nat :=
  length (nodup Z.eq_dec labels).

(* ================================================================== *)
(** ** Factor extractor: number of components *)

(** [choose_factor_components]: the frame is seen through its shape. *)
Definition choose_factor_components (n_samples n_features : nat) : Z :=
  let max_components :=
    Z.max 1 (Z.min 5 (Z.min (Z.of_nat n_features) (Z.of_nat n_samples - 1))) in
  Z.min 3 max_components.

(** The formula of the specification, for comparison. *)
Definition components_formula (n_samples n_features : nat) : Z :=
  Z.min 3 (Z.min 5 (Z.min (Z.of_nat n_features) (Z.of_nat n_samples - 1))).

(* ================================================================== *)
(** ** Cluster selector and partitioner *)

Record cluster_payload := mk_payload {
  labels : list Z;
  centers : list (list float);
  silhouette : Q
}.

Section Clustering.

(** [KMeans(n_clusters, n_init, random_state=42)] fitted on a matrix:
    the labels of [fit_predict] and [cluster_centers_]. *)
Variable KMeans_fit_predict : Z -> nat -> ndarray -> list Z.
Variable KMeans_cluster_centers : Z -> nat -> ndarray -> list (list float).
(** [silhouette_score(factors, labels)], on the label vectors for
    which scikit-learn returns a score: from 2 to [n_samples - 1]
    distinct labels.  On others it raises, which is left out here. *)
Variable silhouette_score : ndarray -> list Z -> Q.

(** [range(2, max_k + 1)] *)
Definition candidates (max_k : Z) : list Z :=
  map Z.of_nat (seq 2 (Z.to_nat (max_k - 1))).

(** The labels fitted for candidate [k] during the search. *)
Definition search_labels (factors : ndarray) (k : Z) : list Z :=
  KMeans_fit_predict k 20 factors.

Definition degenerate (factors : ndarray) (k : Z) : bool :=
  (n_distinct (search_labels factors k) <? 2)%nat.

Definition search_score (factors : ndarray) (k : Z) : Q :=
  silhouette_score factors (search_labels factors k).

(** One iteration of the loop, on the pair [(best_k, best_score)]. *)
Definition search_step (factors : ndarray) (best : Z * Q) (k : Z) : Z * Q :=
  if degenerate factors k then best
  else
    let score := search_score factors k in
    if Qgtb score (snd best) then (k, score) else best.

Definition pick_cluster_count (factors : ndarray) : Z * Q :=
  let max_k := Z.min 6 (Z.of_nat (shape0 factors) - 1) in
  if (max_k <? 2)%Z then (1%Z, 0%Q)
  else fold_left (search_step factors) (candidates max_k) (1%Z, 0%Q).

Definition cluster_factors (factors : ndarray) (n_clusters : Z) : cluster_payload :=
  if (n_clusters <=? 1)%Z then
    mk_payload (repeat 0%Z (shape0 factors)) (mean_axis0 factors) 0%Q
  else
    let labels := KMeans_fit_predict n_clusters 50 factors in
    let silhouette :=
      if (1 <? n_distinct labels)%nat then silhouette_score factors labels
      else 0%Q in
    mk_payload labels (KMeans_cluster_centers n_clusters 50 factors) silhouette.

End Clustering.

(* ================================================================== *)
(** ** Strings, as the preparer and the driver use them *)

Module Str.

Definition is_lower (c : ascii) : bool :=
  let n := nat_of_ascii c in ((97 <=? n) && (n <=? 122))%nat.

Definition is_upper (c : ascii) : bool :=
  let n := nat_of_ascii c in ((65 <=? n) && (n <=? 90))%nat.

Definition is_digit (c : ascii) : bool :=
  let n := nat_of_ascii c in ((48 <=? n) && (n <=? 57))%nat.

(** [c.isalnum()] *)
Definition isalnum (c : ascii) : bool := is_lower c || is_upper c || is_digit c.

(** The characters [str.strip()] removes. *)
Definition is_space (c : ascii) : bool :=
  let n := nat_of_ascii c in
  (((9 <=? n) && (n <=? 13)) || ((28 <=? n) && (n <=? 32)))%nat.

Definition upper_char (c : ascii) : ascii :=
  if is_lower c then ascii_of_nat (nat_of_ascii c - 32) else c.

Definition lower_char (c : ascii) : ascii :=
  if is_upper c then ascii_of_nat (nat_of_ascii c + 32) else c.

(** [s.upper()] *)
Fixpoint upper (s : string) : string :=
  match s with
  | EmptyString => EmptyString
  | String c r => String (upper_char c) (upper r)
  end.

Fixpoint lstrip_by (p : ascii -> bool) (s : string) : string :=
  match s with
  | EmptyString => EmptyString
  | String c r => if p c then lstrip_by p r else s
  end.

Fixpoint rstrip_by (p : ascii -> bool) (s : string) : string :=
  match s with
  | EmptyString => EmptyString
  | String c r =>
      match rstrip_by p r with
      | EmptyString => if p c then EmptyString else String c EmptyString
      | r' => String c r'
      end
  end.

Definition strip_by (p : ascii -> bool) (s : string) : string :=
  rstrip_by p (lstrip_by p s).

(** [s.strip()] *)
Definition strip (s : string) : string := strip_by is_space s.

(** [col.startswith(p)] *)
Definition startswith (p s : string) : bool := String.prefix p s.

End Str.

(* ================================================================== *)
(** ** Generic list operations of pandas and Python *)

Section ListOps.

Variable A : Type.
Variable eqb : A -> A -> bool.
Variable leb : A -> A -> bool.

Definition mem (x : A) (l : list A) : bool := existsb (eqb x) l.

(** [Series.unique()]: the distinct values, in order of first
    appearance. *)
Fixpoint unique (l : list A) : list A :=
  match l with
  | [] => []
  | x :: r => x :: filter (fun y => negb (eqb x y)) (unique r)
  end.

Fixpoint insert_sorted (x : A) (l : list A) : list A :=
  match l with
  | [] => [x]
  | y :: r => if leb x y then x :: l else y :: insert_sorted x r
  end.

(** [sorted(l)] *)
Fixpoint sorted (l : list A) : list A :=
  match l with
  | [] => []
  | x :: r => insert_sorted x (sorted r)
  end.

End ListOps.

Definition Qleb (a b : Q) : bool := Qle_bool a b.

(** [Series.median()] over the numbers present: NaN when there is
    none, the middle value or the mean of the two middle values. *)
Definition median (l : list float) : float :=
  let s := sorted Qleb (present l) in
  let n := length s in
  match n with
  | O => None
  | _ =>
      if Nat.odd n then Some (nth (n / 2) s 0%Q)
      else Some ((nth (n / 2 - 1) s 0%Q + nth (n / 2) s 0%Q) / 2)%Q
  end.

(** [Series.fillna(v)] on one cell; filling with NaN leaves NaN. *)
Definition fillna (v : float) (x : float) : float :=
  match x with
  | Some _ => x
  | None => v
  end.

(* ================================================================== *)
(** ** Data model *)

Definition TARGET_COLUMNS : list string :=
  [ "cliente_id"; "cliente_nome"; "cliente_perfil"; "agencia_nome";
    "carteira_nome"; "linha"; "risco_inicial"; "cob_garantia"; "mod_bacen";
    "atraso"; "valor_contrato"; "saldo_atual" ]%string.

Definition RISK_ORDER : list string :=
  [ "AA"; "A"; "B"; "BB"; "C"; "CC"; "D"; "DD"; "E"; "EE"; "F"; "G" ]%string.

Fixpoint index_of (x : string) (l : list string) : option nat :=
  match l with
  | [] => None
  | y :: r => if String.eqb x y then Some O else option_map S (index_of x r)
  end.

(** [RISK_MAP.get(name)]: the position in [RISK_ORDER]. *)
Definition RISK_MAP (name : string) : option Z :=
  option_map Z.of_nat (index_of name RISK_ORDER).

(** A value of a source column that should hold a number. *)
Inductive cell :=
| CNull
| CNum (q : Q)
| CText (s : string).

(** A Contract record, as fetched: the twelve [TARGET_COLUMNS]. *)
Record contract := mk_contract {
  raw_cliente_id : option string;
  raw_cliente_nome : option string;
  raw_cliente_perfil : option string;
  raw_agencia_nome : option string;
  raw_carteira_nome : option string;
  raw_linha : option string;
  raw_risco_inicial : option string;
  raw_cob_garantia : cell;
  raw_mod_bacen : option string;
  raw_atraso : cell;
  raw_valor_contrato : cell;
  raw_saldo_atual : cell
}.

(** A row of the working frame of [prepare_segment]: the source columns
    after coercion, the risk score and the one-hot indicators. *)
Record row := mk_row {
  cliente_id : option string;
  cliente_nome : option string;
  cliente_perfil : option string;
  agencia_nome : option string;
  carteira_nome : option string;
  linha : option string;
  risco_inicial : option string;
  cob_garantia : float;
  mod_bacen : string;
  atraso : float;
  valor_contrato : float;
  saldo_atual : float;
  risco_inicial_score : option Z;
  dummies : list Q
}.

Definition set_valor_contrato (v : float) (r : row) : row :=
  mk_row (cliente_id r) (cliente_nome r) (cliente_perfil r) (agencia_nome r)
         (carteira_nome r) (linha r) (risco_inicial r) (cob_garantia r)
         (mod_bacen r) (atraso r) v (saldo_atual r)
         (risco_inicial_score r) (dummies r).

Definition set_saldo_atual (v : float) (r : row) : row :=
  mk_row (cliente_id r) (cliente_nome r) (cliente_perfil r) (agencia_nome r)
         (carteira_nome r) (linha r) (risco_inicial r) (cob_garantia r)
         (mod_bacen r) (atraso r) (valor_contrato r) v
         (risco_inicial_score r) (dummies r).

Definition set_dummies (d : list Q) (r : row) : row :=
  mk_row (cliente_id r) (cliente_nome r) (cliente_perfil r) (agencia_nome r)
         (carteira_nome r) (linha r) (risco_inicial r) (cob_garantia r)
         (mod_bacen r) (atraso r) (valor_contrato r) (saldo_atual r)
         (risco_inicial_score r) d.

(** A prepared frame: its rows and the names of its one-hot columns,
    to which the [dummies] of every row are aligned. *)
Record frame := mk_frame {
  onehot_columns : list string;
  data : list row
}.

(** [frame.columns] *)
Definition columns (f : frame) : list string :=
  TARGET_COLUMNS ++ ["risco_inicial_score"%string] ++ onehot_columns f.

(* ================================================================== *)
(** ** Feature preparer *)

Definition is_some (A : Type) (x : option A) : bool :=
  match x with Some _ => true | None => false end.

(** [pd.get_dummies(values, prefix="mod", dtype=float)]: one column per
    distinct value, in sorted order. *)
Definition dummy_name (v : string) : string := ("mod_" ++ v)%string.

Definition dummy_columns (values : list string) : list string :=
  map dummy_name (sorted String.leb (unique String.eqb values)).

Definition dummy_row (cols : list string) (v : string) : list Q :=
  map (fun c => if String.eqb c (dummy_name v) then 1%Q else 0%Q) cols.

Section Preparer.

(** What [pd.to_numeric] reads in a text cell; [None] when the text
    is not a number. *)
Variable parse_number : string -> float.

(** [pd.to_numeric(x, errors="coerce")] *)
Definition to_numeric (c : cell) : float :=
  match c with
  | CNull => None
  | CNum q => Some q
  | CText s => parse_number s
  end.

(** The column assignments of lines 86-92, seen on one record. *)
Definition coerce (c : contract) : row :=
  let risco := option_map (fun s => Str.strip (Str.upper s)) (raw_risco_inicial c) in
  mk_row (raw_cliente_id c) (raw_cliente_nome c) (raw_cliente_perfil c)
         (raw_agencia_nome c) (raw_carteira_nome c) (raw_linha c)
         risco
         (to_numeric (raw_cob_garantia c))
         (Str.upper (match raw_mod_bacen c with
                     | Some s => s
                     | None => "DESCONHECIDO"%string
                     end))
         (to_numeric (raw_atraso c))
         (to_numeric (raw_valor_contrato c))
         (to_numeric (raw_saldo_atual c))
         (match risco with Some s => RISK_MAP s | None => None end)
         [].

(** A row that [dropna(subset=[score, cob_garantia, atraso])] keeps. *)
Definition has_core_drivers (r : row) : bool :=
  is_some (risco_inicial_score r) && is_some (cob_garantia r) && is_some (atraso r).

Definition dropna_core (work : list row) : list row :=
  filter has_core_drivers work.

Definition prepare_segment (df : list contract) : frame :=
  let work := map coerce df in
  let work := dropna_core work in
  match work with
  | [] => mk_frame [] work
  | _ =>
      let work :=
        map (fun r => set_valor_contrato
                        (fillna (median (map valor_contrato work)) (valor_contrato r)) r)
            work in
      let work :=
        map (fun r => set_saldo_atual
                        (fillna (median (map saldo_atual work)) (saldo_atual r)) r)
            work in
      let cols := dummy_columns (map mod_bacen work) in
      mk_frame cols (map (fun r => set_dummies (dummy_row cols (mod_bacen r)) r) work)
  end.

End Preparer.

(* ================================================================== *)
(** ** Summarizer *)

Inductive res (A : Type) :=
| Ok (a : A)
| Raise (msg : string).
Arguments Raise {A} msg.

Record summary_row := mk_summary {
  cluster : Z;
  total_clientes : Z;
  risco_inicial_medio : float;
  cobertura_media : float;
  atraso_medio : float;
  valor_contrato_medio : float;
  saldo_atual_medio : float
}.

(** [Series.nunique()] of the client identifiers: missing ones do not
    count. *)
Definition nunique (ids : list (option string)) : nat :=
  length (unique String.eqb (present ids)).

(** [df[df["cluster"] == cluster_id]] on the labeled table. *)
Definition cluster_rows (labeled : list (row * Z)) (cluster_id : Z) : list row :=
  map fst (filter (fun p => Z.eqb (snd p) cluster_id) labeled).

Definition score_as_float (r : row) : float :=
  option_map inject_Z (risco_inicial_score r).

Section Summarizer.

(** Python's [round(x, 2)] on the float64 a mean is. *)
Variable round_2 : Q -> Q.

Definition summary_of (labeled : list (row * Z)) (cluster_id : Z) : summary_row :=
  let cluster_df := cluster_rows labeled cluster_id in
  mk_summary cluster_id
    (Z.of_nat (nunique (map cliente_id cluster_df)))
    (option_map round_2 (mean_skipna (map score_as_float cluster_df)))
    (option_map round_2 (mean_skipna (map cob_garantia cluster_df)))
    (option_map round_2 (mean_skipna (map atraso cluster_df)))
    (option_map round_2 (mean_skipna (map valor_contrato cluster_df)))
    (option_map round_2 (mean_skipna (map saldo_atual cluster_df))).

(** The loop of [summarize_clusters] once the labels are attached. *)
Definition summarize_labeled (labeled : list (row * Z)) : list summary_row :=
  map (summary_of labeled) (sorted Z.leb (unique Z.eqb (map snd labeled))).

(** [summarize_clusters(df, labels)]; attaching a label column of
    another length raises. *)
Definition summarize_clusters (df : list row) (labels : list Z) : res (list summary_row) :=
  if (length df =? length labels)%nat
  then Ok (summarize_labeled (combine df labels))
  else Raise "ValueError: length of values does not match length of index".

End Summarizer.

(* ================================================================== *)
(** ** The driver and what it leaves behind *)

(** [slugify] *)
Definition slug_char (c : ascii) : ascii :=
  if Str.isalnum c then Str.lower_char c else "_"%char.

Fixpoint slug_chars (s : string) : string :=
  match s with
  | EmptyString => EmptyString
  | String c r => String (slug_char c) (slug_chars r)
  end.

(** The [while "__" in slug] loop: every run of underscores becomes
    one underscore. *)
Fixpoint collapse_underscores (s : string) : string :=
  match s with
  | EmptyString => EmptyString
  | String c r =>
      match r with
      | String d _ =>
          if (Ascii.eqb c "_" && Ascii.eqb d "_")%bool
          then collapse_underscores r
          else String c (collapse_underscores r)
      | EmptyString => String c EmptyString
      end
  end.

Definition slugify (value : string) : string :=
  match Str.strip_by (Ascii.eqb "_") (collapse_underscores (slug_chars value)) with
  | EmptyString => "perfil"%string
  | slug => slug
  end.

(** [f"factor_{idx+1}"] *)
Definition factor_name (idx : nat) : string :=
  ("factor_" ++ NilEmpty.string_of_uint (Nat.to_uint (S idx)))%string.

(** A row of the detailed output: the prepared row, its cluster label
    and its factor scores by name. *)
Record client_out := mk_client_out {
  out_row : row;
  out_cluster : Z;
  out_factors : list (string * Q)
}.

(** One persisted run: header, per-client rows and summary rows. *)
Record cluster_run := mk_run {
  run_id : nat;
  perfil_of : string;
  algoritmo : string;
  feature_columns : list string;
  n_components : Z;
  n_clusters : Z;
  metric_silhouette : Q;
  metric_search_silhouette : Q;
  run_clientes : list client_out;
  run_resumo : list summary_row
}.

Inductive csv :=
| DetailedCsv (content : list client_out)
| SummaryCsv (content : list summary_row).

Inductive log_record :=
| WarnTooFewRecords (perfil : string) (n : nat)
| WarnTooFewAfterCleaning (perfil : string)
| InfoPersisted (perfil : string) (n_rows : nat) (id : nat) (sil : Q)
| InfoNotPersisted (perfil : string) (n_rows : nat).

(** Everything the driver can touch: the output directory, the three
    tables of the store (one [cluster_run] holds a run's three record
    sets), the log, and the source of run identifiers. *)
Record world := mk_world {
  files : list (string * csv);
  store : list cluster_run;
  log : list log_record;
  next_uuid : nat
}.

(** A computation that may raise, over the world. *)
Definition M (A : Type) : Type := world -> res A * world.

Definition ret (A : Type) (a : A) : M A := fun w => (Ok a, w).

Definition bind (A B : Type) (m : M A) (k : A -> M B) : M B :=
  fun w =>
    match m w with
    | (Ok a, w') => k a w'
    | (Raise msg, w') => (Raise msg, w')
    end.

Definition lift (A : Type) (r : res A) : M A := fun w => (r, w).

Notation "x <- m ;; k" := (bind m (fun x => k))
  (at level 61, m at next level, right associativity).
Notation "m ;;; k" := (bind m (fun _ => k))
  (at level 61, right associativity).

Definition logger (l : log_record) : M unit :=
  fun w => (Ok tt, mk_world (files w) (store w) (log w ++ [l]) (next_uuid w)).

(** [frame.to_csv(path)]: the file is created or replaced. *)
Definition to_csv (path : string) (content : csv) : M unit :=
  fun w =>
    (Ok tt,
     mk_world ((path, content) :: filter (fun f => negb (String.eqb (fst f) path)) (files w))
              (store w) (log w) (next_uuid w)).

(** [uuid.uuid4()]: an identifier never handed out before. *)
Definition uuid4 : M nat :=
  fun w => (Ok (next_uuid w), mk_world (files w) (store w) (log w) (S (next_uuid w))).

(** The transaction of [persist_cluster_run]: the run's record sets
    become visible together. *)
Definition insert_run (r : cluster_run) : M unit :=
  fun w => (Ok tt, mk_world (files w) (r :: store w) (log w) (next_uuid w)).

Inductive Engine := engine_handle.

Definition ensure_minimum_samples (A : Type) (df : list A) (threshold : nat) : bool :=
  (threshold <=? length df)%nat.

Definition numeric_drivers : list string :=
  [ "risco_inicial_score"; "cob_garantia"; "atraso"; "valor_contrato"; "saldo_atual" ]%string.

(** The condition of the comprehension that builds [feature_cols]. *)
Definition is_feature_col (col : string) : bool :=
  (Str.startswith "mod_" col && negb (String.eqb col "mod_bacen"))
  || mem String.eqb col numeric_drivers.

Definition feature_cols_of (prepared : frame) : list string :=
  filter is_feature_col (columns prepared).

(** The numeric value of a row under a column name; columns that hold
    text have none. *)
Definition value_at (f : frame) (r : row) (col : string) : float :=
  if String.eqb col "risco_inicial_score" then score_as_float r
  else if String.eqb col "cob_garantia" then cob_garantia r
  else if String.eqb col "atraso" then atraso r
  else if String.eqb col "valor_contrato" then valor_contrato r
  else if String.eqb col "saldo_atual" then saldo_atual r
  else match index_of col (onehot_columns f) with
       | Some i => nth_error (dummies r) i
       | None => None
       end.

(** [prepared[cols]] as a numeric table. *)
Definition select (f : frame) (cols : list string) : list (list float) :=
  map (fun r => map (value_at f r) cols) (data f).

Definition factor_scores (factors : ndarray) (n : nat) (i : nat) : list (string * Q) :=
  map (fun idx => (factor_name idx, nth i (column factors idx) 0%Q)) (seq 0 n).

Section Driver.

Variable round_2 : Q -> Q.
Variable parse_number : string -> float.
Variable KMeans_fit_predict : Z -> nat -> ndarray -> list Z.
Variable KMeans_cluster_centers : Z -> nat -> ndarray -> list (list float).
Variable silhouette_score : ndarray -> list Z -> Q.
(** [StandardScaler] followed by
    [FactorAnalysis(n_components, random_state=42).fit_transform]:
    the factor scores, or the exception of the fit. *)
Variable factor_fit_transform : list (list float) -> Z -> res ndarray.

(** [run_factor_analysis]: the factors and the component count. *)
Definition run_factor_analysis (feature_frame : list (list float)) (n_features : nat)
  : res (ndarray * Z) :=
  let n := choose_factor_components (length feature_frame) n_features in
  match factor_fit_transform feature_frame n with
  | Ok factors => Ok (factors, n)
  | Raise msg => Raise msg
  end.

Definition persist_cluster_run (perfil : string) (clientes : list client_out)
           (summary : list summary_row) (cols : list string)
           (n_comp k : Z) (sil search_sil : Q) : M nat :=
  id <- uuid4 ;;
  insert_run (mk_run id perfil "factor_analysis_kmeans_v1" cols n_comp k
                     sil search_sil clientes summary) ;;;
  ret id.

Definition build_segment_outputs (perfil : string) (df_segment : list contract)
           (engine : option Engine) : M (option (list client_out)) :=
  if negb (ensure_minimum_samples df_segment 25) then
    logger (WarnTooFewRecords perfil (length df_segment)) ;;;
    ret None
  else
    let prepared := prepare_segment parse_number df_segment in
    if (length (data prepared) =? 0)%nat || (length (data prepared) <? 5)%nat then
      logger (WarnTooFewAfterCleaning perfil) ;;;
      ret None
    else
      let feature_cols := feature_cols_of prepared in
      payload <- lift (run_factor_analysis (select prepared feature_cols)
                                           (length feature_cols)) ;;
      let factors := fst payload in
      let n_comp := snd payload in
      let '(k, search_silhouette) :=
        pick_cluster_count KMeans_fit_predict silhouette_score factors in
      let cluster_payload :=
        cluster_factors KMeans_fit_predict KMeans_cluster_centers
                        silhouette_score factors k in
      let labels := labels cluster_payload in
      if negb (length labels =? length (data prepared))%nat then
        lift (Raise "ValueError: length of values does not match length of index")
      else
        let perfil_slug := slugify perfil in
        let detailed_path := ("perfil_" ++ perfil_slug ++ "_clusters.csv")%string in
        let summary_path := ("perfil_" ++ perfil_slug ++ "_cluster_summary.csv")%string in
        let out :=
          map (fun irl => mk_client_out (snd (fst irl)) (snd irl)
                            (factor_scores factors (Z.to_nat n_comp) (fst (fst irl))))
              (combine (combine (seq 0 (length (data prepared))) (data prepared)) labels) in
        to_csv detailed_path (DetailedCsv out) ;;;
        summary <- lift (summarize_clusters round_2 (data prepared) labels) ;;
        to_csv summary_path (SummaryCsv summary) ;;;
        match engine with
        | Some _ =>
            id <- persist_cluster_run perfil out summary feature_cols n_comp k
                    (silhouette cluster_payload) search_silhouette ;;
            logger (InfoPersisted perfil (length summary) id (silhouette cluster_payload)) ;;;
            ret (Some out)
        | None =>
            logger (InfoNotPersisted perfil (length summary)) ;;;
            ret (Some out)
        end.

End Driver.

(* ================================================================== *)
(** ** The loop of [slugify], as written *)

(** ["__" in slug] *)
Fixpoint has_pair (s : string) : bool :=
  match s with
  | EmptyString => false
  | String c r =>
      match r with
      | EmptyString => false
      | String d _ => (Ascii.eqb c "_" && Ascii.eqb d "_") || has_pair r
      end
  end.

(** [slug.replace("__", "_")]: one pass from the left over the
    occurrences that do not overlap. *)
Fixpoint replace_pairs (s : string) : string :=
  match s with
  | EmptyString => EmptyString
  | String c r =>
      match r with
      | EmptyString => s
      | String d r' =>
          if (Ascii.eqb c "_" && Ascii.eqb d "_")%bool
          then String "_" (replace_pairs r')
          else String c (replace_pairs r)
      end
  end.

(** [while "__" in slug: slug = slug.replace("__", "_")], stopped
    after [fuel] rounds. *)
Fixpoint collapse_loop (fuel : nat) (slug : string) : string :=
  match fuel with
  | O => slug
  | S fuel' =>
      if has_pair slug then collapse_loop fuel' (replace_pairs slug) else slug
  end.

(* ================================================================== *)
(** ** Cross-cohort views and the entry point *)

(** The three columns [main] groups the consolidated table by. *)
Inductive dimension :=
| by_agencia_nome
| by_carteira_nome
| by_linha.

Definition dimension_value (d : dimension) (o : client_out) : option string :=
  match d with
  | by_agencia_nome => agencia_nome (out_row o)
  | by_carteira_nome => carteira_nome (out_row o)
  | by_linha => linha (out_row o)
  end.

(** A row of a view: a dimension value, a cluster label and the number
    of distinct clients. *)
Record view_row := mk_view_row {
  view_value : string;
  view_cluster : Z;
  view_total : Z
}.

Definition key_eqb (a b : string * Z) : bool :=
  String.eqb (fst a) (fst b) && Z.eqb (snd a) (snd b).

(** The order of the group keys: by dimension value, then by label. *)
Definition key_leb (a b : string * Z) : bool :=
  String.ltb (fst a) (fst b)
  || (String.eqb (fst a) (fst b) && Z.leb (snd a) (snd b)).

(** The key of a record under [groupby([dimension, "cluster"])]; a
    record whose dimension value is missing belongs to no group. *)
Definition group_key (d : dimension) (o : client_out) : option (string * Z) :=
  option_map (fun v => (v, out_cluster o)) (dimension_value d o).

Definition in_group (d : dimension) (k : string * Z) (o : client_out) : bool :=
  match group_key d o with
  | Some k' => key_eqb k k'
  | None => false
  end.

(** [groupby(...).agg(total_clientes=("cliente_id", "nunique"))
    .reset_index()]: one row per key, keys ascending. *)
Definition grouped_counts (d : dimension) (consolidated : list client_out) : list view_row :=
  map (fun k =>
         mk_view_row (fst k) (snd k)
           (Z.of_nat (nunique (map (fun o => cliente_id (out_row o))
                                   (filter (in_group d k) consolidated)))))
      (sorted key_leb (unique key_eqb (present (map (group_key d) consolidated)))).

Definition total_desc (a b : view_row) : bool :=
  Z.leb (view_total b) (view_total a).

(** The frame [aggregate_views] writes: the counts, largest first.
    Rows with equal counts keep the order of their keys here; pandas
    leaves their order open. *)
Definition aggregate_view (d : dimension) (consolidated : list client_out) : list view_row :=
  sorted total_desc (grouped_counts d consolidated).

Inductive main_record :=
| ErrorNoData
| WarnNoClusters
| InfoDone.

(** What [main] can touch: the world of the driver, the rollup files
    of the output directory and the records [main] itself logs. *)
Record main_state := mk_main_state {
  outputs : world;
  rollups : list (string * list view_row);
  main_log : list main_record
}.

(** [aggregate_views(consolidated, dimension, filename)] *)
Definition aggregate_views (consolidated : list client_out) (d : dimension)
           (filename : string) (s : main_state) : main_state :=
  mk_main_state (outputs s)
    ((filename, aggregate_view d consolidated)
       :: filter (fun f => negb (String.eqb (fst f) filename)) (rollups s))
    (main_log s).

(** [df.groupby("cliente_perfil")]: one group per profile tag present,
    tags ascending, every group in the order of the table. *)
Definition groupby_perfil (df : list contract) : list (string * list contract) :=
  map (fun perfil =>
         (perfil,
          filter (fun c => match raw_cliente_perfil c with
                           | Some p => String.eqb p perfil
                           | None => false
                           end) df))
      (sorted String.leb (unique String.eqb (present (map raw_cliente_perfil df)))).

Section EntryPoint.

Variable round_2 : Q -> Q.
Variable parse_number : string -> float.
Variable KMeans_fit_predict : Z -> nat -> ndarray -> list Z.
Variable KMeans_cluster_centers : Z -> nat -> ndarray -> list (list float).
Variable silhouette_score : ndarray -> list Z -> Q.
Variable factor_fit_transform : list (list float) -> Z -> res ndarray.

(** The loop of [main] over the cohorts: the results that are not
    [None] are collected in order; an exception ends the loop. *)
Fixpoint run_cohorts (groups : list (string * list contract))
         (consolidated_rows : list (list client_out)) : M (list (list client_out)) :=
  match groups with
  | [] => ret consolidated_rows
  | (perfil, grupo) :: rest =>
      result <- build_segment_outputs round_2 parse_number KMeans_fit_predict
                  KMeans_cluster_centers silhouette_score factor_fit_transform
                  perfil grupo (Some engine_handle) ;;
      run_cohorts rest
        (match result with
         | Some r => consolidated_rows ++ [r]
         | None => consolidated_rows
         end)
  end.

(** [main], on the table that [load_source_dataframe] fetched. *)
Definition main (df : list contract) (s : main_state) : res unit * main_state :=
  if (length df =? 0)%nat then
    (Ok tt, mk_main_state (outputs s) (rollups s) (main_log s ++ [ErrorNoData]))
  else
    match run_cohorts (groupby_perfil df) [] (outputs s) with
    | (Raise msg, w) => (Raise msg, mk_main_state w (rollups s) (main_log s))
    | (Ok consolidated_rows, w) =>
        let s1 := mk_main_state w (rollups s) (main_log s) in
        match consolidated_rows with
        | [] =>
            (Ok tt, mk_main_state w (rollups s) (main_log s ++ [WarnNoClusters]))
        | _ =>
            let consolidated := concat consolidated_rows in
            let s2 := aggregate_views consolidated by_agencia_nome
                                      "clusters_por_agencia.csv" s1 in
            let s3 := aggregate_views consolidated by_carteira_nome
                                      "clusters_por_carteira.csv" s2 in
            let s4 := aggregate_views consolidated by_linha
                                      "clusters_por_linha.csv" s3 in
            (Ok tt, mk_main_state (outputs s4) (rollups s4) (main_log s4 ++ [InfoDone]))
        end
    end.

End EntryPoint.

(* ================================================================== *)
(** * Vocabulary of the statements and sample data *)

(** ** Cluster selector *)

(** What holds of [(best_k, best_score)] after the candidates
    [2 .. 2+n-1] have been tried, [degen] telling the degenerate fits
    and [score] giving the silhouette of a candidate. *)
Definition search_inv (degen : Z -> bool) (score : Z -> Q)
           (n : nat) (best : Z * Q) : Prop :=
  (best = (1%Z, 0%Q)
   /\ forall k, (2 <= k < 2 + Z.of_nat n)%Z -> degen k = false -> (score k <= 0)%Q)
  \/ ((2 <= fst best < 2 + Z.of_nat n)%Z
      /\ degen (fst best) = false
      /\ snd best = score (fst best)
      /\ (0 < snd best)%Q
      /\ forall k, (2 <= k < 2 + Z.of_nat n)%Z -> degen k = false ->
                   (score k <= snd best)%Q
                   /\ ((k < fst best)%Z -> (score k < snd best)%Q)).

(** ** Summarizer *)

(** The sum of the [total_clientes] column of a summary. *)
Definition total_sum (summary : list summary_row) : Z :=
  fold_right Z.add 0%Z (map total_clientes summary).

(** The distinct client identifiers counted for one cluster. *)
Definition cluster_ids (labeled : list (row * Z)) (c : Z) : list string :=
  unique String.eqb (present (map cliente_id (cluster_rows labeled c))).

(** No client identifier occurs under two different labels. *)
Definition one_cluster_per_client (labeled : list (row * Z)) : Prop :=
  forall r1 r2 c1 c2 id,
    In (r1, c1) labeled -> In (r2, c2) labeled ->
    cliente_id r1 = Some id -> cliente_id r2 = Some id -> c1 = c2.


(** ** Feature preparer *)

Section PreparerVocabulary.

Variable parse_number : string -> float.

(** A record that the missing-value filter keeps. *)
Definition survives (c : contract) : bool :=
  has_core_drivers (coerce parse_number c).

(** The surviving records of a cohort. *)
Definition survivors (df : list contract) : list contract :=
  filter survives df.

End PreparerVocabulary.

(** The modality of a record once imputed and upper-cased, with the
    sentinel given. *)
Definition modality_with (sentinel : string) (c : contract) : string :=
  Str.upper (match raw_mod_bacen c with Some s => s | None => sentinel end).

(** The last three steps of [prepare_segment] on one row of the
    working frame [W]: the two imputations and the indicators. *)
Definition finish (W : list row) (r : row) : row :=
  set_dummies
    (dummy_row (dummy_columns (map mod_bacen W)) (mod_bacen r))
    (set_saldo_atual
       (fillna (median (map saldo_atual W)) (saldo_atual r))
       (set_valor_contrato
          (fillna (median (map valor_contrato W)) (valor_contrato r)) r)).

(** ** Driver *)

Definition is_warning (l : log_record) : bool :=
  match l with
  | WarnTooFewRecords _ _ | WarnTooFewAfterCleaning _ => true
  | _ => false
  end.

(** ** Sample data and stand-ins for the fitted models *)

(** Concrete stand-ins for the fitted models, to run the selector on:
    they separate the first point from the rest, and score every fit
    of a sample that is not empty 1/4. *)
Definition toy_fit_predict (k : Z) (n_init : nat) (a : ndarray) : list Z :=
  match rows a with
  | [] => []
  | _ :: r => 0%Z :: repeat 1%Z (length r)
  end.

Definition toy_centers (k : Z) (n_init : nat) (a : ndarray) : list (list float) := [].

Definition toy_silhouette (a : ndarray) (l : list Z) : Q :=
  if (Z.of_nat (length l) =? 0)%Z then 0%Q else (1 # 4)%Q.

(** A stand-in for the factor fit: the first [n] feature columns, NaN
    read as 0. *)
Definition toy_factor_fit (feature_frame : list (list float)) (n : Z) : res ndarray :=
  Ok (mk_ndarray (Z.to_nat n)
        (map (fun r => firstn (Z.to_nat n)
                         (map (fun x => match x with Some q => q | None => 0%Q end) r))
             feature_frame)).

Definition line_matrix (n : nat) : ndarray :=
  mk_ndarray 1 (map (fun i => [inject_Z (Z.of_nat i)]) (seq 0 n)).

Definition sample_row (id : string) (score : Z) (v : Q) : row :=
  mk_row (Some id) None (Some "PF"%string) None None None (Some "A"%string)
         (Some v) "X"%string (Some 0%Q) (Some v) (Some v) (Some score) [].

(** One client with two contracts. *)
Definition shared_client_df : list row :=
  [ sample_row "c1" 1 10%Q; sample_row "c1" 9 200%Q ].

(** A cohort of three records: the first lacks its modality, the
    second its contract value, the third its delinquency. *)
Definition sample_contract (id : string) (atraso_cell valor : cell)
           (modality : option string) : contract :=
  mk_contract (Some id) None (Some "PF"%string) None None None (Some " aa "%string)
              (CNum 120) modality atraso_cell valor (CNum 7).

Definition sample_cohort : list contract :=
  [ sample_contract "c1" (CNum 0) (CNum 30) None;
    sample_contract "c2" (CNum 4) CNull (Some "a01"%string);
    sample_contract "c3" CNull (CNum 1000) (Some "a01"%string) ].

(** Thirty records with every core driver present. *)
Definition full_cohort : list contract :=
  map (fun i => sample_contract "c" (CNum (inject_Z (Z.of_nat i))) (CNum 30) None)
      (seq 0 30).

Definition no_text_number (s : string) : float := None.

Definition empty_world : world := mk_world [] [] [] 0.


(** ** Slugs *)

Fixpoint all_chars (p : ascii -> bool) (s : string) : bool :=
  match s with
  | EmptyString => true
  | String c r => p c && all_chars p r
  end.

Definition is_ascii_char (c : ascii) : bool := (nat_of_ascii c <? 128)%nat.

(** A tag on which the character classes of the embedding are those
    of Python. *)
Definition is_ascii (s : string) : bool := all_chars is_ascii_char s.

(** The characters a slug is made of. *)
Definition slug_ok_char (c : ascii) : bool :=
  Str.is_lower c || Str.is_digit c || Ascii.eqb c "_".

Definition starts_with_underscore (s : string) : bool :=
  match s with
  | String d _ => Ascii.eqb d "_"
  | EmptyString => false
  end.

Fixpoint ends_with_underscore (s : string) : bool :=
  match s with
  | EmptyString => false
  | String c EmptyString => Ascii.eqb c "_"
  | String _ r => ends_with_underscore r
  end.

(** A file-name part as [slugify] makes them: not empty, lower-case
    letters, digits and single underscores, none at either end. *)
Definition well_formed_slug (t : string) : Prop :=
  t <> EmptyString
  /\ all_chars slug_ok_char t = true
  /\ has_pair t = false
  /\ starts_with_underscore t = false
  /\ ends_with_underscore t = false.


(** ** Records kept by the preparer, read on the raw record *)

(** The six descriptive columns of a prepared row and of a record. *)
Definition identity_of (r : row) :=
  (cliente_id r, cliente_nome r, cliente_perfil r,
   agencia_nome r, carteira_nome r, linha r).

Definition raw_identity_of (c : contract) :=
  (raw_cliente_id c, raw_cliente_nome c, raw_cliente_perfil c,
   raw_agencia_nome c, raw_carteira_nome c, raw_linha c).

(** The rating of a record, upper-cased and trimmed, is one of the
    twelve of [RISK_ORDER]. *)
Definition rating_known (c : contract) : bool :=
  match raw_risco_inicial c with
  | Some s => mem String.eqb (Str.strip (Str.upper s)) RISK_ORDER
  | None => false
  end.


(** ** Output files of the driver *)

(** The content of the output directory under a path. *)
Definition lookup_file (path : string) (fs : list (string * csv)) : option csv :=
  option_map snd (find (fun f => String.eqb (fst f) path) fs).

(** The two paths [build_segment_outputs] derives from a profile tag. *)
Definition detailed_path (perfil : string) : string :=
  ("perfil_" ++ slugify perfil ++ "_clusters.csv")%string.

Definition summary_path (perfil : string) : string :=
  ("perfil_" ++ slugify perfil ++ "_cluster_summary.csv")%string.

(** A factor fit that always fails. *)
Definition failing_factor_fit (feature_frame : list (list float)) (n : Z) : res ndarray :=
  Raise "ValueError: Input X contains NaN".


(** ** Views *)

(** The key of a row of a view. *)
Definition view_key (r : view_row) : string * Z := (view_value r, view_cluster r).

(** A consolidated table of three rows: two branches, one client with
    two contracts in the same branch and cluster, one row without a
    branch. *)
Definition sample_out (id : string) (branch : option string) (label : Z) : client_out :=
  mk_client_out
    (mk_row (Some id) None (Some "PF"%string) branch None None (Some "A"%string)
            (Some 1%Q) "X"%string (Some 0%Q) (Some 1%Q) (Some 1%Q) (Some 1%Z) [])
    label [].

Definition sample_consolidated : list client_out :=
  [ sample_out "c1" (Some "norte"%string) 0;
    sample_out "c1" (Some "norte"%string) 0;
    sample_out "c2" (Some "sul"%string) 1;
    sample_out "c3" None 1;
    sample_out "c4" (Some "norte"%string) 0 ].


(** The content of a rollup file. *)
Definition lookup_rollup (name : string) (fs : list (string * list view_row))
  : option (list view_row) :=
  option_map snd (find (fun f => String.eqb (fst f) name) fs).

Definition empty_main_state : main_state := mk_main_state empty_world [] [].

(** The records of a table that carry a given profile tag. *)
Definition with_perfil (perfil : string) (df : list contract) : list contract :=
  filter (fun c => match raw_cliente_perfil c with
                   | Some p => String.eqb p perfil
                   | None => false
                   end) df.


(** ** Sample runs *)

(** The first row of the prepared sample cohort. *)
Definition sample_prepared_row : row :=
  finish (map (coerce no_text_number) (survivors no_text_number sample_cohort))
         (coerce no_text_number (sample_contract "c1" (CNum 0) (CNum 30) None)).

(** A stand-in for a k-means fit that puts every point in cluster 0. *)
Definition flat_fit_predict (k : Z) (n_init : nat) (a : ndarray) : list Z :=
  repeat 0%Z (shape0 a).

(** The driver on the cohort of thirty records, with an engine. *)
Definition full_run : res (option (list client_out)) * world :=
  build_segment_outputs round2 no_text_number toy_fit_predict toy_centers
    toy_silhouette toy_factor_fit "PF" full_cohort (Some engine_handle) empty_world.

Definition full_out : list client_out :=
  match fst full_run with
  | Ok (Some out) => out
  | _ => []
  end.

(** The same with the fit that finds a single cluster. *)
Definition flat_run : res (option (list client_out)) * world :=
  build_segment_outputs round2 no_text_number flat_fit_predict toy_centers
    toy_silhouette toy_factor_fit "PF" full_cohort (Some engine_handle) empty_world.

Definition flat_out : list client_out :=
  match fst flat_run with
  | Ok (Some out) => out
  | _ => []
  end.

Definition flat_stored_run : cluster_run :=
  match store (snd flat_run) with
  | run :: _ => run
  | [] => mk_run 0 "" "" [] 0 0 0 0 [] []
  end.


(** ** Tables within the ASCII range, records of several profiles *)

(** Every rating of the table is an ASCII string, where [Str.upper]
    and [Str.strip] are Python's [upper] and [strip]. *)
Definition ascii_ratings (df : list contract) : Prop :=
  forall c s, In c df -> raw_risco_inicial c = Some s -> is_ascii s = true.

(** What the view of a dimension is, up to the order of equal counts:
    the grouped counts, arranged with the largest first. *)
Definition is_view (d : dimension) (consolidated : list client_out)
           (view : list view_row) : Prop :=
  StronglySorted (fun a b => (view_total b <= view_total a)%Z) view
  /\ Permutation view (grouped_counts d consolidated).

(** Every cohort of the list ended normally under [build], from the
    world [w] to the world [w']; [tables] are the tables that were
    returned, in the order of the cohorts. *)
Inductive cohorts_return
  (build : string -> list contract -> option Engine -> M (option (list client_out)))
  : list (string * list contract) -> world -> list (list client_out) -> world -> Prop :=
| cohorts_none (w : world) : cohorts_return build [] w [] w
| cohorts_skip (perfil : string) (grupo : list contract)
               (rest : list (string * list contract))
               (w w1 w2 : world) (tables : list (list client_out)) :
    build perfil grupo (Some engine_handle) w = (Ok None, w1) ->
    cohorts_return build rest w1 tables w2 ->
    cohorts_return build ((perfil, grupo) :: rest) w tables w2
| cohorts_table (perfil : string) (grupo : list contract)
                (rest : list (string * list contract))
                (w w1 w2 : world) (out : list client_out)
                (tables : list (list client_out)) :
    build perfil grupo (Some engine_handle) w = (Ok (Some out), w1) ->
    cohorts_return build rest w1 tables w2 ->
    cohorts_return build ((perfil, grupo) :: rest) w (out :: tables) w2.






(* ================================================================== *)
(** * Properties *)

(** ** Order on scores *)

Lemma Qgtb_lt (a b : Q) : Qgtb a b = true <-> (b < a)%Q.
Proof.
  unfold Qgtb. rewrite negb_true_iff. split; intro H.
  - apply Qnot_le_lt. intro L. apply Qle_bool_iff in L. congruence.
  - destruct (Qle_bool a b) eqn:E; [|reflexivity].
    apply Qle_bool_iff in E. exfalso. exact (Qlt_not_le _ _ H E).
Qed.

Lemma Qgtb_le (a b : Q) : Qgtb a b = false <-> (a <= b)%Q.
Proof.
  unfold Qgtb. rewrite negb_false_iff. apply Qle_bool_iff.
Qed.

(** ** Factor extractor *)

Lemma choose_factor_components_range (n_samples n_features : nat) :
  (1 <= choose_factor_components n_samples n_features <= 3)%Z.
Proof. unfold choose_factor_components. lia. Qed.

(** C8, as stated, fails: a frame of one row and five columns gets one
    component, where the formula gives zero. *)
Lemma choose_factor_components_formula_fails :
  ~ (forall n_samples n_features : nat,
        choose_factor_components n_samples n_features
        = components_formula n_samples n_features).
Proof.
  intro H. specialize (H 1%nat 5%nat). vm_compute in H. discriminate H.
Qed.

(** C8, amended: the component count is [max(1, formula)]; on a frame
    with at least one column and two rows it is the formula itself and
    exceeds neither the feature count, nor the sample count minus one,
    nor 5, nor 3. *)
Theorem choose_factor_components_spec (n_samples n_features : nat) :
  choose_factor_components n_samples n_features
  = Z.max 1 (components_formula n_samples n_features)
  /\ ((1 <= n_features)%nat -> (2 <= n_samples)%nat ->
      choose_factor_components n_samples n_features
      = components_formula n_samples n_features
      /\ (choose_factor_components n_samples n_features <= Z.of_nat n_features)%Z
      /\ (choose_factor_components n_samples n_features <= Z.of_nat n_samples - 1)%Z
      /\ (choose_factor_components n_samples n_features <= 5)%Z
      /\ (choose_factor_components n_samples n_features <= 3)%Z).
Proof.
  unfold choose_factor_components, components_formula. split; [lia|].
  intros Hf Hs. repeat split; lia.
Qed.

Lemma choose_factor_components_spec_witness :
  choose_factor_components 30 7 = components_formula 30 7
  /\ (choose_factor_components 30 7 <= Z.of_nat 7)%Z
  /\ (choose_factor_components 30 7 <= Z.of_nat 30 - 1)%Z
  /\ (choose_factor_components 30 7 <= 5)%Z
  /\ (choose_factor_components 30 7 <= 3)%Z.
Proof.
  apply (proj2 (choose_factor_components_spec 30 7)); lia.
Defined.

(** ** Cluster selector *)

Section SelectorFacts.

Variable KMeans_fit_predict : Z -> nat -> ndarray -> list Z.
Variable silhouette_score : ndarray -> list Z -> Q.
Variable factors : ndarray.

Let step := search_step KMeans_fit_predict silhouette_score factors.
Let degen := degenerate KMeans_fit_predict factors.
Let score := search_score KMeans_fit_predict silhouette_score factors.

Lemma search_step_inv (n : nat) (best : Z * Q) :
  search_inv degen score n best ->
  search_inv degen score (S n) (step best (Z.of_nat (2 + n))).
Proof.
  intros Inv. unfold step, search_step. fold degen. fold score.
  set (k0 := Z.of_nat (2 + n)).
  assert (Hk0 : k0 = (2 + Z.of_nat n)%Z) by (unfold k0; lia).
  destruct (degen k0) eqn:Dg.
  - (* skipped *)
    destruct Inv as [[E All] | (R & Nd & Sc & Pos & All)].
    + left. split; [exact E|]. intros k Hk Hd.
      assert (k = k0 \/ (2 <= k < 2 + Z.of_nat n)%Z) as [->|Hk'] by lia.
      * congruence.
      * now apply All.
    + right. repeat split; try lia; try assumption;
        assert (k = k0 \/ (2 <= k < 2 + Z.of_nat n)%Z) as [->|Hk'] by lia;
        try congruence.
      * now apply All.
      * now apply All.
  - destruct (Qgtb (score k0) (snd best)) eqn:G.
    + (* a new best *)
      apply Qgtb_lt in G. right. cbn [fst snd].
      repeat split; try lia; try assumption.
      * destruct Inv as [[E _] | (_ & _ & _ & Pos & _)].
        -- subst best. exact G.
        -- eapply Qlt_trans; eassumption.
      * assert (k = k0 \/ (2 <= k < 2 + Z.of_nat n)%Z) as [->|Hk'] by lia.
        -- apply Qle_refl.
        -- apply Qlt_le_weak. destruct Inv as [[E All] | (_ & _ & _ & _ & All)].
           ++ subst best. eapply Qle_lt_trans; [apply All|exact G]; assumption.
           ++ eapply Qle_lt_trans; [apply All|exact G]; assumption.
      * intros Lt.
        assert (Hk' : (2 <= k < 2 + Z.of_nat n)%Z) by lia.
        destruct Inv as [[E All] | (_ & _ & _ & _ & All)].
        -- subst best. eapply Qle_lt_trans; [apply All|exact G]; assumption.
        -- eapply Qle_lt_trans; [apply All|exact G]; assumption.
    + (* not better than the best so far *)
      apply Qgtb_le in G.
      destruct Inv as [[E All] | (R & Nd & Sc & Pos & All)].
      * left. split; [exact E|]. intros k Hk Hd.
        assert (k = k0 \/ (2 <= k < 2 + Z.of_nat n)%Z) as [->|Hk'] by lia.
        -- subst best. exact G.
        -- now apply All.
      * right. repeat split; try lia; try assumption;
          assert (k = k0 \/ (2 <= k < 2 + Z.of_nat n)%Z) as [->|Hk'] by lia.
        -- exact G.
        -- now apply All.
        -- intros; lia.
        -- now apply All.
Qed.

Lemma search_fold_inv (n : nat) :
  search_inv degen score n (fold_left step (map Z.of_nat (seq 2 n)) (1%Z, 0%Q)).
Proof.
  induction n as [|n IH].
  - left. split; [reflexivity|]. intros k Hk. lia.
  - rewrite seq_S, map_app, fold_left_app. cbn [map fold_left].
    now apply search_step_inv.
Qed.

Lemma pick_cluster_count_unfold :
  pick_cluster_count KMeans_fit_predict silhouette_score factors
  = if (Z.min 6 (Z.of_nat (shape0 factors) - 1) <? 2)%Z then (1%Z, 0%Q)
    else fold_left step
           (map Z.of_nat (seq 2 (Z.to_nat (Z.min 6 (Z.of_nat (shape0 factors) - 1) - 1))))
           (1%Z, 0%Q).
Proof. reflexivity. Qed.

(** The invariant at the end of [pick_cluster_count], in terms of
    [max_k]. *)
Lemma pick_cluster_count_inv :
  let max_k := Z.min 6 (Z.of_nat (shape0 factors) - 1) in
  let best := pick_cluster_count KMeans_fit_predict silhouette_score factors in
  (best = (1%Z, 0%Q)
   /\ forall k, (2 <= k <= max_k)%Z -> degen k = false -> (score k <= 0)%Q)
  \/ ((2 <= fst best <= max_k)%Z
      /\ degen (fst best) = false
      /\ snd best = score (fst best)
      /\ (0 < snd best)%Q
      /\ forall k, (2 <= k <= max_k)%Z -> degen k = false ->
                   (score k <= snd best)%Q
                   /\ ((k < fst best)%Z -> (score k < snd best)%Q)).
Proof.
  intros max_k best. unfold best. rewrite pick_cluster_count_unfold.
  fold max_k. destruct (max_k <? 2)%Z eqn:Small.
  - apply Z.ltb_lt in Small. left. split; [reflexivity|]. intros; lia.
  - apply Z.ltb_ge in Small.
    pose proof (search_fold_inv (Z.to_nat (max_k - 1))) as Inv.
    assert (Hb : (2 + Z.of_nat (Z.to_nat (max_k - 1)) = max_k + 1)%Z) by lia.
    unfold search_inv in Inv. rewrite Hb in Inv.
    destruct Inv as [[E All] | (R & Nd & Sc & Pos & All)].
    + left. split; [exact E|]. intros k Hk. apply All. lia.
    + right. repeat split; try lia; try assumption; apply All; try lia; assumption.
Qed.

End SelectorFacts.

Section Selector.

Variable KMeans_fit_predict : Z -> nat -> ndarray -> list Z.
Variable silhouette_score : ndarray -> list Z -> Q.

Let pick := pick_cluster_count KMeans_fit_predict silhouette_score.
Let degen := degenerate KMeans_fit_predict.
Let score := search_score KMeans_fit_predict silhouette_score.

(** C1: [pick_cluster_count] looks at the candidates
    [2 .. min(6, n_samples - 1)].  When that bound is below 2, and
    when every candidate is degenerate (fewer than 2 distinct
    labels), it returns [(1, 0)].  Otherwise a returned [k >= 2] is a
    candidate that is not degenerate, the returned score is its
    silhouette and is above the initial 0, no other non-degenerate
    candidate scores higher, and every earlier one scores strictly
    lower: the first candidate to reach the best score wins. *)
Theorem pick_cluster_count_search (factors : ndarray) :
  let max_k := Z.min 6 (Z.of_nat (shape0 factors) - 1) in
  let best_k := fst (pick factors) in
  let best_score := snd (pick factors) in
  ((max_k < 2)%Z -> pick factors = (1%Z, 0%Q))
  /\ ((forall k, (2 <= k <= max_k)%Z -> degen factors k = true) ->
      pick factors = (1%Z, 0%Q))
  /\ (pick factors = (1%Z, 0%Q)
      \/ ((2 <= best_k <= max_k)%Z
          /\ degen factors best_k = false
          /\ best_score = score factors best_k
          /\ (0 < best_score)%Q))
  /\ (forall k, (2 <= k <= max_k)%Z -> degen factors k = false ->
                (score factors k <= best_score)%Q)
  /\ (forall k, (2 <= k < best_k)%Z -> degen factors k = false ->
                (score factors k < best_score)%Q).
Proof.
  intros max_k best_k best_score.
  pose proof (pick_cluster_count_inv KMeans_fit_predict silhouette_score factors)
    as Inv.
  cbv zeta in Inv. fold pick in Inv. fold max_k in Inv.
  fold (degen factors) in Inv. fold (score factors) in Inv.
  destruct Inv as [[E All] | (R & Nd & Sc & Pos & All)].
  - unfold best_k, best_score. rewrite E. cbn [fst snd].
    repeat split; auto.
    intros k Hk. lia.
  - fold best_k in R, Nd, Sc, All. fold best_score in Sc, Pos, All.
    split; [intros; lia|]. split.
    + intros Deg. rewrite (Deg best_k R) in Nd. discriminate Nd.
    + split; [right; auto|]. split.
      * intros k Hk Hd. now apply All.
      * intros k Hk Hd. apply All; try assumption; lia.
Qed.

(** C10: a count [k >= 2] is returned only when the silhouette of a
    non-degenerate candidate is strictly positive (its own is); when
    no non-degenerate candidate scores above 0, the result is
    [(1, 0)]. *)
Theorem pick_cluster_count_needs_positive_score (factors : ndarray) :
  let max_k := Z.min 6 (Z.of_nat (shape0 factors) - 1) in
  ((2 <= fst (pick factors))%Z ->
   exists k, (2 <= k <= max_k)%Z
             /\ degen factors k = false
             /\ (0 < score factors k)%Q
             /\ pick factors = (k, score factors k))
  /\ ((forall k, (2 <= k <= max_k)%Z -> degen factors k = false ->
                 (score factors k <= 0)%Q) ->
      pick factors = (1%Z, 0%Q)).
Proof.
  intros max_k.
  pose proof (pick_cluster_count_inv KMeans_fit_predict silhouette_score factors)
    as Inv.
  cbv zeta in Inv. fold pick in Inv. fold max_k in Inv.
  fold (degen factors) in Inv. fold (score factors) in Inv.
  destruct Inv as [[E All] | (R & Nd & Sc & Pos & All)].
  - split.
    + rewrite E. cbn [fst]. intros; lia.
    + intros _. exact E.
  - split.
    + intros _. exists (fst (pick factors)). repeat split; try lia; try assumption.
      * rewrite <- Sc. exact Pos.
      * rewrite <- Sc. now destruct (pick factors).
    + intros Low. exfalso.
      specialize (Low (fst (pick factors)) R Nd).
      rewrite <- Sc in Low. exact (Qlt_not_le _ _ Pos Low).
Qed.

End Selector.

(** The selector on six points of a line, with the stand-in models:
    every candidate is fitted into two clusters and scores 1/4, and the
    first one, [k = 2], is returned. *)
Lemma pick_cluster_count_search_witness :
  pick_cluster_count toy_fit_predict toy_silhouette (line_matrix 6) = (2%Z, (1 # 4)%Q)
  /\ (search_score toy_fit_predict toy_silhouette (line_matrix 6) 3
      <= snd (pick_cluster_count toy_fit_predict toy_silhouette (line_matrix 6)))%Q.
Proof.
  split; [reflexivity|].
  apply (proj1 (proj2 (proj2 (proj2
           (pick_cluster_count_search toy_fit_predict toy_silhouette (line_matrix 6)))))).
  - vm_compute. split; discriminate.
  - reflexivity.
Defined.

Lemma pick_cluster_count_needs_positive_score_witness :
  exists k, (2 <= k <= Z.min 6 (Z.of_nat (shape0 (line_matrix 6)) - 1))%Z
            /\ degenerate toy_fit_predict (line_matrix 6) k = false
            /\ (0 < search_score toy_fit_predict toy_silhouette (line_matrix 6) k)%Q
            /\ pick_cluster_count toy_fit_predict toy_silhouette (line_matrix 6)
               = (k, search_score toy_fit_predict toy_silhouette (line_matrix 6) k).
Proof.
  apply (proj1 (pick_cluster_count_needs_positive_score
                  toy_fit_predict toy_silhouette (line_matrix 6))).
  vm_compute. discriminate.
Defined.

(** ** Partitioner *)

Lemma mean_times_length (l : list Q) :
  l <> [] ->
  exists q, mean l = Some q /\ (q * Qlen l == Qsum l)%Q.
Proof.
  intros Hne. destruct l as [|x r]; [congruence|].
  eexists. split; [reflexivity|].
  assert (Hn : ~ (Qlen (x :: r) == 0)%Q).
  { unfold Qlen, Qeq. cbn [length Qnum Qden inject_Z]. lia. }
  field. exact Hn.
Qed.

Lemma nth_error_map_seq (A : Type) (f : nat -> A) (m j : nat) :
  (j < m)%nat -> nth_error (map f (seq 0 m)) j = Some (f j).
Proof.
  intros Hj. rewrite nth_error_map, nth_error_seq.
  destruct (Nat.ltb_spec j m); [reflexivity|lia].
Qed.

(** C4: with a cluster count of at most 1, [cluster_factors] labels
    every record 0, reports a silhouette of 0 and returns one center:
    the vector of the column means of the factor matrix (each entry
    times the number of records is the sum of its column; NaN on a
    matrix without rows). *)
Theorem cluster_factors_single
  (KMeans_fit_predict : Z -> nat -> ndarray -> list Z)
  (KMeans_cluster_centers : Z -> nat -> ndarray -> list (list float))
  (silhouette_score : ndarray -> list Z -> Q)
  (factors : ndarray) (n_clusters : Z) :
  (n_clusters <= 1)%Z ->
  let p := cluster_factors KMeans_fit_predict KMeans_cluster_centers
                           silhouette_score factors n_clusters in
  length (labels p) = shape0 factors
  /\ (forall l, In l (labels p) -> l = 0%Z)
  /\ silhouette p = 0%Q
  /\ exists c,
       centers p = [c]
       /\ length c = shape1 factors
       /\ forall j, (j < shape1 factors)%nat ->
            (shape0 factors = 0%nat -> nth_error c j = Some None)
            /\ (shape0 factors <> 0%nat ->
                exists q, nth_error c j = Some (Some q)
                          /\ (q * inject_Z (Z.of_nat (shape0 factors))
                              == Qsum (column factors j))%Q).
Proof.
  intros Hk p. unfold p, cluster_factors.
  apply Z.leb_le in Hk. rewrite Hk. cbn [labels silhouette centers].
  split; [apply repeat_length|].
  split; [intros l Hl; now apply repeat_spec in Hl|].
  split; [reflexivity|].
  eexists. split; [reflexivity|].
  split; [now rewrite length_map, length_seq|].
  intros j Hj. rewrite nth_error_map_seq by exact Hj.
  assert (Hlen : length (column factors j) = shape0 factors)
    by (unfold column, shape0; apply length_map).
  split.
  - intros Hz. rewrite Hz in Hlen.
    destruct (column factors j); [reflexivity|discriminate Hlen].
  - intros Hnz.
    destruct (mean_times_length (l := column factors j)) as (q & Hq & Hs).
    { intros E. rewrite E in Hlen. cbn in Hlen. congruence. }
    exists q. split; [now rewrite Hq|].
    unfold Qlen in Hs. now rewrite Hlen in Hs.
Qed.

Lemma cluster_factors_single_witness :
  let p := cluster_factors toy_fit_predict toy_centers toy_silhouette
                           (line_matrix 4) 1 in
  length (labels p) = shape0 (line_matrix 4)
  /\ (forall l, In l (labels p) -> l = 0%Z)
  /\ silhouette p = 0%Q
  /\ exists c,
       centers p = [c]
       /\ length c = shape1 (line_matrix 4)
       /\ forall j, (j < shape1 (line_matrix 4))%nat ->
            (shape0 (line_matrix 4) = 0%nat -> nth_error c j = Some None)
            /\ (shape0 (line_matrix 4) <> 0%nat ->
                exists q, nth_error c j = Some (Some q)
                          /\ (q * inject_Z (Z.of_nat (shape0 (line_matrix 4)))
                              == Qsum (column (line_matrix 4) j))%Q).
Proof.
  apply (@cluster_factors_single toy_fit_predict toy_centers toy_silhouette
                                 (line_matrix 4) 1).
  lia.
Defined.

(** ** [unique] and [sorted] *)

Section UniqueFacts.

Variable A : Type.
Variable eqb : A -> A -> bool.
Hypothesis eqb_eq : forall x y, eqb x y = true <-> x = y.

Lemma unique_In (l : list A) (x : A) : In x (unique eqb l) <-> In x l.
Proof.
  induction l as [|a r IH]; cbn [unique]; [tauto|].
  cbn [In]. rewrite filter_In, IH, negb_true_iff.
  split.
  - intros [E | [H _]]; auto.
  - intros [E | H]; auto.
    destruct (eqb a x) eqn:Eq.
    + left. now apply eqb_eq.
    + right. auto.
Qed.

Lemma unique_NoDup (l : list A) : NoDup (unique eqb l).
Proof.
  induction l as [|a r IH]; cbn [unique]; constructor.
  - rewrite filter_In, negb_true_iff. intros [_ H].
    assert (T : eqb a a = true) by now apply eqb_eq.
    congruence.
  - now apply NoDup_filter.
Qed.

End UniqueFacts.

Section SortedFacts.

Variable A : Type.
Variable leb : A -> A -> bool.

Lemma insert_sorted_perm (x : A) (l : list A) :
  Permutation (insert_sorted leb x l) (x :: l).
Proof.
  induction l as [|y r IH]; cbn [insert_sorted]; [reflexivity|].
  destruct (leb x y); [reflexivity|].
  rewrite IH. apply perm_swap.
Qed.

Lemma sorted_perm (l : list A) : Permutation (sorted leb l) l.
Proof.
  induction l as [|x r IH]; cbn [sorted]; [reflexivity|].
  rewrite insert_sorted_perm. now constructor.
Qed.

Lemma sorted_In (l : list A) (x : A) : In x (sorted leb l) <-> In x l.
Proof.
  split; apply Permutation_in; [|symmetry]; apply sorted_perm.
Qed.

Lemma sorted_NoDup (l : list A) : NoDup l -> NoDup (sorted leb l).
Proof.
  apply Permutation_NoDup. symmetry. apply sorted_perm.
Qed.

Lemma sorted_length (l : list A) : length (sorted leb l) = length l.
Proof. apply Permutation_length, sorted_perm. Qed.

End SortedFacts.




Lemma Z_eqb_eq (x y : Z) : Z.eqb x y = true <-> x = y.
Proof. apply Z.eqb_eq. Qed.


Lemma present_In (A : Type) (l : list (option A)) (x : A) :
  In x (present l) <-> In (Some x) l.
Proof.
  induction l as [|[a|] r IH]; cbn [present In]; [tauto| |].
  - rewrite IH. split; intros [E|H]; auto; left; congruence.
  - rewrite IH. split; [auto|]. intros [E|H]; [discriminate|auto].
Qed.

(** ** Summarizer *)

Lemma combine_fst (A B : Type) (l : list A) (l' : list B) :
  length l = length l' -> map fst (combine l l') = l.
Proof.
  revert l'. induction l as [|a r IH]; intros [|b r'] H; cbn in *;
    try discriminate; [reflexivity|]. f_equal. apply IH. lia.
Qed.

Lemma combine_snd (A B : Type) (l : list A) (l' : list B) :
  length l = length l' -> map snd (combine l l') = l'.
Proof.
  revert l'. induction l as [|a r IH]; intros [|b r'] H; cbn in *;
    try discriminate; [reflexivity|]. f_equal. apply IH. lia.
Qed.

Lemma cluster_rows_In (labeled : list (row * Z)) (c : Z) (r : row) :
  In r (cluster_rows labeled c) <-> In (r, c) labeled.
Proof.
  unfold cluster_rows. rewrite in_map_iff. split.
  - intros ([r' c'] & E & H). apply filter_In in H. cbn in *.
    destruct H as [H Eq]. apply Z.eqb_eq in Eq. now subst.
  - intros H. exists (r, c). split; [reflexivity|].
    apply filter_In. split; [exact H|]. cbn. apply Z.eqb_refl.
Qed.

Lemma cluster_ids_In (labeled : list (row * Z)) (c : Z) (id : string) :
  In id (cluster_ids labeled c)
  <-> exists r, In (r, c) labeled /\ cliente_id r = Some id.
Proof.
  unfold cluster_ids. rewrite (unique_In _ String.eqb_eq), present_In, in_map_iff.
  split; intros (r & H1 & H2).
  - exists r. split; [now apply cluster_rows_In|exact H1].
  - exists r. split; [exact H2|now apply cluster_rows_In].
Qed.

Lemma summarize_labeled_clusters (round_2 : Q -> Q) (labeled : list (row * Z)) :
  map cluster (summarize_labeled round_2 labeled)
  = sorted Z.leb (unique Z.eqb (map snd labeled)).
Proof.
  unfold summarize_labeled. rewrite map_map. cbn [summary_of cluster].
  apply map_id.
Qed.

Lemma total_sum_concat (round_2 : Q -> Q) (labeled : list (row * Z)) (cs : list Z) :
  total_sum (map (summary_of round_2 labeled) cs)
  = Z.of_nat (length (concat (map (cluster_ids labeled) cs))).
Proof.
  unfold total_sum. induction cs as [|c r IH]; [reflexivity|].
  cbn [map fold_right concat]. rewrite IH, length_app.
  cbn [summary_of total_clientes]. unfold nunique, cluster_ids. lia.
Qed.

Lemma NoDup_concat_map (A B : Type) (f : A -> list B) (cs : list A) :
  NoDup cs ->
  (forall c, In c cs -> NoDup (f c)) ->
  (forall c c' x, In c cs -> In c' cs -> In x (f c) -> In x (f c') -> c = c') ->
  NoDup (concat (map f cs)).
Proof.
  induction 1 as [|c r Hnin Hnd IH]; intros Each Disj; cbn [map concat].
  - constructor.
  - apply NoDup_app.
    + apply Each. now left.
    + apply IH.
      * intros c' H. apply Each. now right.
      * intros c1 c2 x H1 H2. apply Disj; now right.
    + intros x Hx Hin. apply in_concat in Hin. destruct Hin as (l & Hl & Hxl).
      apply in_map_iff in Hl. destruct Hl as (c' & <- & Hc').
      assert (c = c') by (apply (Disj c c' x); auto; [now left|now right]).
      subst. contradiction.
Qed.

Lemma n_distinct_unique (l : list Z) :
  length (unique Z.eqb l) = n_distinct l.
Proof.
  unfold n_distinct. apply Permutation_length, NoDup_Permutation.
  - apply unique_NoDup, Z_eqb_eq.
  - apply NoDup_nodup.
  - intros x. rewrite (unique_In _ Z_eqb_eq), nodup_In. tauto.
Qed.

(** The distinct clients of the whole table are among those counted
    for the clusters. *)
Lemma all_ids_incl (labeled : list (row * Z)) :
  incl (unique String.eqb (present (map cliente_id (map fst labeled))))
       (concat (map (cluster_ids labeled)
                    (sorted Z.leb (unique Z.eqb (map snd labeled))))).
Proof.
  intros id H.
  apply (unique_In _ String.eqb_eq), present_In, in_map_iff in H.
  destruct H as (r & Hid & Hr). apply in_map_iff in Hr.
  destruct Hr as ([r' c] & E & Hin). cbn in E. subst r'.
  apply in_concat. exists (cluster_ids labeled c). split.
  - apply in_map. apply sorted_In, (unique_In _ Z_eqb_eq).
    change c with (snd (r, c)). now apply in_map.
  - apply cluster_ids_In. now exists r.
Qed.

Lemma cluster_ids_incl (labeled : list (row * Z)) (cs : list Z) :
  incl (concat (map (cluster_ids labeled) cs))
       (unique String.eqb (present (map cliente_id (map fst labeled)))).
Proof.
  intros id H. apply in_concat in H. destruct H as (l & Hl & Hid).
  apply in_map_iff in Hl. destruct Hl as (c & <- & _).
  apply cluster_ids_In in Hid. destruct Hid as (r & Hin & E).
  apply (unique_In _ String.eqb_eq), present_In, in_map_iff.
  exists r. split; [exact E|]. change r with (fst (r, c)). now apply in_map.
Qed.

(** C3, as stated, fails, whatever the rounding: a client with
    contracts in two clusters is counted in both rows. *)
Lemma summarize_clusters_counts_sum_fails :
  ~ (exists round_2 : Q -> Q,
       forall df labels summary,
         summarize_clusters round_2 df labels = Ok summary ->
         total_sum summary = Z.of_nat (nunique (map cliente_id df))).
Proof.
  intros [round_2 H].
  specialize (H shared_client_df [0%Z; 1%Z] _ eq_refl).
  vm_compute in H. discriminate H.
Qed.

(** C3, amended: the summary has exactly one row per distinct label;
    the [total_clientes] of its rows sum to at least the number of
    distinct client identifiers of the table, and to exactly that
    number when no client identifier occurs under two labels. *)
Theorem summarize_clusters_rows_and_counts
  (round_2 : Q -> Q) (df : list row) (labels : list Z) :
  length df = length labels ->
  exists summary,
    summarize_clusters round_2 df labels = Ok summary
    /\ NoDup (map cluster summary)
    /\ (forall c, In c (map cluster summary) <-> In c labels)
    /\ length summary = n_distinct labels
    /\ (Z.of_nat (nunique (map cliente_id df)) <= total_sum summary)%Z
    /\ (one_cluster_per_client (combine df labels) ->
        total_sum summary = Z.of_nat (nunique (map cliente_id df))).
Proof.
  intros Hlen. unfold summarize_clusters.
  rewrite (proj2 (Nat.eqb_eq _ _) Hlen).
  eexists. split; [reflexivity|].
  set (labeled := combine df labels).
  assert (Hs : map snd labeled = labels) by now apply combine_snd.
  assert (Hf : map fst labeled = df) by now apply combine_fst.
  rewrite summarize_labeled_clusters, Hs.
  split; [apply sorted_NoDup, unique_NoDup, Z_eqb_eq|].
  split; [intros c; now rewrite sorted_In, (unique_In _ Z_eqb_eq)|].
  split.
  { rewrite <- (length_map cluster), summarize_labeled_clusters, Hs.
    rewrite sorted_length. apply n_distinct_unique. }
  unfold summarize_labeled. rewrite total_sum_concat, Hs.
  unfold nunique. rewrite <- Hf. split.
  - apply inj_le, NoDup_incl_length.
    + apply unique_NoDup, String.eqb_eq.
    + rewrite <- Hs. apply all_ids_incl.
  - intros One. f_equal. apply Nat.le_antisymm.
    + apply NoDup_incl_length; [|apply cluster_ids_incl].
      apply NoDup_concat_map.
      * apply sorted_NoDup, unique_NoDup, Z_eqb_eq.
      * intros c _. apply unique_NoDup, String.eqb_eq.
      * intros c c' id _ _ H1 H2.
        apply cluster_ids_In in H1, H2.
        destruct H1 as (r1 & I1 & E1), H2 as (r2 & I2 & E2).
        exact (One r1 r2 c c' id I1 I2 E1 E2).
    + apply NoDup_incl_length.
      * apply unique_NoDup, String.eqb_eq.
      * rewrite <- Hs. apply all_ids_incl.
Qed.

Lemma summarize_clusters_rows_and_counts_witness :
  exists summary,
    summarize_clusters round2 shared_client_df [0%Z; 1%Z] = Ok summary
    /\ NoDup (map cluster summary)
    /\ (forall c, In c (map cluster summary) <-> In c [0%Z; 1%Z])
    /\ length summary = n_distinct [0%Z; 1%Z]
    /\ (Z.of_nat (nunique (map cliente_id shared_client_df)) <= total_sum summary)%Z
    /\ (one_cluster_per_client (combine shared_client_df [0%Z; 1%Z]) ->
        total_sum summary = Z.of_nat (nunique (map cliente_id shared_client_df))).
Proof.
  apply (summarize_clusters_rows_and_counts round2 shared_client_df [0%Z; 1%Z]).
  reflexivity.
Defined.



(** ** Feature preparer *)

Lemma filter_map_comm (A B : Type) (g : A -> B) (p : B -> bool) (l : list A) :
  filter p (map g l) = map g (filter (fun x => p (g x)) l).
Proof.
  induction l as [|a r IH]; [reflexivity|].
  cbn [map filter]. destruct (p (g a)); cbn [map]; now rewrite IH.
Qed.

Lemma filter_all_true (A : Type) (p : A -> bool) (l : list A) :
  (forall x, In x l -> p x = true) -> filter p l = l.
Proof.
  induction l as [|a r IH]; intros H; [reflexivity|].
  cbn [filter]. rewrite (H a (or_introl eq_refl)). f_equal.
  apply IH. intros x Hx. apply H. now right.
Qed.

Lemma index_of_In (col : string) (cols : list string) :
  In col cols ->
  exists i, index_of col cols = Some i /\ nth_error cols i = Some col.
Proof.
  induction cols as [|c r IH]; intros H; [contradiction|].
  cbn [index_of]. destruct (String.eqb_spec col c) as [->|Ne].
  - exists 0%nat. split; reflexivity.
  - destruct H as [E|H]; [congruence|].
    destruct (IH H) as (i & Hi & Hn). exists (S i).
    rewrite Hi. split; [reflexivity|exact Hn].
Qed.

Lemma upper_char_not_b (a : ascii) : Ascii.eqb (Str.upper_char a) "b" = false.
Proof. destruct a as [[] [] [] [] [] [] [] []]; reflexivity. Qed.

(** No upper-cased modality gives an indicator named like the raw
    column. *)
Lemma dummy_name_upper_not_raw (s : string) :
  String.eqb (dummy_name (Str.upper s)) "mod_bacen" = false.
Proof.
  unfold dummy_name. cbn. destruct s as [|a r]; [reflexivity|].
  cbn. now rewrite upper_char_not_b.
Qed.

Lemma dummy_name_is_feature (s : string) :
  is_feature_col (dummy_name (Str.upper s)) = true.
Proof.
  unfold is_feature_col. rewrite dummy_name_upper_not_raw.
  unfold dummy_name, Str.startswith. cbn.
  now destruct (Str.upper s).
Qed.

Lemma dummy_name_inj (u v : string) : dummy_name u = dummy_name v -> u = v.
Proof. unfold dummy_name. cbn. congruence. Qed.

(** The value of a row under one of the one-hot columns. *)
Lemma value_at_dummy (f : frame) (r : row) (v : string) :
  In (dummy_name v) (onehot_columns f) ->
  dummies r = dummy_row (onehot_columns f) (mod_bacen r) ->
  value_at f r (dummy_name v)
  = Some (if String.eqb (dummy_name v) (dummy_name (mod_bacen r))
          then 1%Q else 0%Q).
Proof.
  intros Hin Hd.
  destruct (index_of_In _ _ Hin) as (i & Hi & Hn).
  unfold value_at.
  change (String.eqb (dummy_name v) "risco_inicial_score") with false.
  change (String.eqb (dummy_name v) "cob_garantia") with false.
  change (String.eqb (dummy_name v) "atraso") with false.
  change (String.eqb (dummy_name v) "valor_contrato") with false.
  change (String.eqb (dummy_name v) "saldo_atual") with false.
  cbv iota. rewrite Hi, Hd. unfold dummy_row.
  rewrite nth_error_map, Hn. reflexivity.
Qed.

Section PreparerFacts.

Variable parse_number : string -> float.

Let prepare := prepare_segment parse_number.

Lemma dropna_core_survivors (df : list contract) :
  dropna_core (map (coerce parse_number) df)
  = map (coerce parse_number) (survivors parse_number df).
Proof. unfold dropna_core, survivors, survives. apply filter_map_comm. Qed.

Lemma prepare_segment_frame (df : list contract) :
  let W := map (coerce parse_number) (survivors parse_number df) in
  data (prepare df) = map (finish W) W
  /\ onehot_columns (prepare df) = dummy_columns (map mod_bacen W).
Proof.
  intros W. unfold prepare, prepare_segment.
  rewrite dropna_core_survivors. fold W.
  destruct W as [|r0 W'] eqn:EW; [split; reflexivity|].
  rewrite <- EW. clear EW r0 W'. cbn [data onehot_columns].
  assert (Hs : forall (g : row -> float),
             map saldo_atual
                 (map (fun r => set_valor_contrato (g r) r) W)
             = map saldo_atual W).
  { intros g. rewrite map_map. now apply map_ext. }
  assert (Hm : forall (g h : row -> float),
             map mod_bacen
                 (map (fun r => set_saldo_atual (h r) r)
                      (map (fun r => set_valor_contrato (g r) r) W))
             = map mod_bacen W).
  { intros g h. rewrite !map_map. now apply map_ext. }
  rewrite Hs, Hm. split; [|reflexivity].
  rewrite !map_map. now apply map_ext.
Qed.

Lemma prepare_segment_nth (df : list contract) (i : nat) (c : contract) :
  nth_error (survivors parse_number df) i = Some c ->
  nth_error (data (prepare df)) i
  = Some (finish (map (coerce parse_number) (survivors parse_number df))
                 (coerce parse_number c)).
Proof.
  intros H. rewrite (proj1 (prepare_segment_frame df)).
  now rewrite !nth_error_map, H.
Qed.

Lemma onehot_columns_In (df : list contract) (col : string) :
  In col (onehot_columns (prepare df))
  <-> exists c, In c (survivors parse_number df)
                /\ col = dummy_name (modality_with "DESCONHECIDO" c).
Proof.
  rewrite (proj2 (prepare_segment_frame df)). unfold dummy_columns.
  rewrite in_map_iff. split.
  - intros (v & <- & Hv).
    rewrite sorted_In, (unique_In _ String.eqb_eq), map_map in Hv. apply in_map_iff in Hv.
    destruct Hv as (c & <- & Hc). now exists c.
  - intros (c & Hc & ->). eexists. split; [reflexivity|].
    rewrite sorted_In, (unique_In _ String.eqb_eq), map_map.
    apply in_map_iff. now exists c.
Qed.

(** C6, amended: the modality of every surviving record is imputed
    with the literal ["DESCONHECIDO"] when it is missing, then
    upper-cased, then one-hot encoded: the frame has the indicator
    column of that value, the row holds 1 under it and 0 under every
    other indicator column. *)
Theorem prepare_segment_modality (df : list contract) (i : nat) (c : contract) :
  nth_error (survivors parse_number df) i = Some c ->
  exists r,
    nth_error (data (prepare df)) i = Some r
    /\ mod_bacen r = modality_with "DESCONHECIDO" c
    /\ (raw_mod_bacen c = None -> mod_bacen r = "DESCONHECIDO"%string)
    /\ In (dummy_name (mod_bacen r)) (onehot_columns (prepare df))
    /\ forall col, In col (onehot_columns (prepare df)) ->
         value_at (prepare df) r col
         = Some (if String.eqb col (dummy_name (mod_bacen r)) then 1%Q else 0%Q).
Proof.
  intros H. eexists. split; [apply prepare_segment_nth; exact H|].
  set (W := map (coerce parse_number) (survivors parse_number df)).
  set (r := finish W (coerce parse_number c)).
  assert (Hm : mod_bacen r = modality_with "DESCONHECIDO" c) by reflexivity.
  assert (Hd : dummies r = dummy_row (dummy_columns (map mod_bacen W)) (mod_bacen r))
    by reflexivity.
  assert (Hc : In c (survivors parse_number df)) by (eapply nth_error_In; eassumption).
  split; [exact Hm|].
  split; [intros E; rewrite Hm; unfold modality_with; rewrite E; reflexivity|].
  split.
  - apply onehot_columns_In. exists c. split; [exact Hc|now rewrite Hm].
  - intros col Hcol.
    destruct (proj1 (onehot_columns_In df col) Hcol) as (c' & _ & ->).
    apply value_at_dummy; [exact Hcol|].
    rewrite Hd. now rewrite (proj2 (prepare_segment_frame df)).
Qed.

(** C7: a missing contract value (outstanding balance) of a surviving
    record is replaced by the median of that column over the surviving
    records of the cohort handed to [prepare_segment], and a value
    that is present is kept. *)
Theorem prepare_segment_median_imputation (df : list contract) (i : nat) (c : contract) :
  nth_error (survivors parse_number df) i = Some c ->
  exists r,
    nth_error (data (prepare df)) i = Some r
    /\ cliente_id r = raw_cliente_id c
    /\ valor_contrato r
       = match to_numeric parse_number (raw_valor_contrato c) with
         | Some v => Some v
         | None =>
             median (map (fun s => to_numeric parse_number (raw_valor_contrato s))
                         (survivors parse_number df))
         end
    /\ saldo_atual r
       = match to_numeric parse_number (raw_saldo_atual c) with
         | Some v => Some v
         | None =>
             median (map (fun s => to_numeric parse_number (raw_saldo_atual s))
                         (survivors parse_number df))
         end.
Proof.
  intros H. eexists. split; [apply prepare_segment_nth; exact H|].
  set (W := map (coerce parse_number) (survivors parse_number df)).
  set (r := finish W (coerce parse_number c)).
  assert (Hv : valor_contrato r
               = fillna (median (map valor_contrato W))
                        (to_numeric parse_number (raw_valor_contrato c)))
    by reflexivity.
  assert (Hs : saldo_atual r
               = fillna (median (map saldo_atual W))
                        (to_numeric parse_number (raw_saldo_atual c)))
    by reflexivity.
  assert (Ev : map valor_contrato W
               = map (fun s => to_numeric parse_number (raw_valor_contrato s))
                     (survivors parse_number df))
    by (unfold W; rewrite map_map; reflexivity).
  assert (Es : map saldo_atual W
               = map (fun s => to_numeric parse_number (raw_saldo_atual s))
                     (survivors parse_number df))
    by (unfold W; rewrite map_map; reflexivity).
  split; [reflexivity|].
  rewrite Hv, Hs, Ev, Es. unfold fillna. split.
  - now destruct (to_numeric parse_number (raw_valor_contrato c)).
  - now destruct (to_numeric parse_number (raw_saldo_atual c)).
Qed.


End PreparerFacts.

(** C6, as stated, fails: the sentinel of a missing modality is not
    ["UNKNOWN"]. *)
Lemma prepare_segment_sentinel_not_UNKNOWN :
  ~ (forall parse df i c,
        nth_error (survivors parse df) i = Some c ->
        exists r,
          nth_error (data (prepare_segment parse df)) i = Some r
          /\ mod_bacen r = modality_with "UNKNOWN" c).
Proof.
  intros H.
  destruct (H no_text_number sample_cohort 0%nat _ eq_refl) as (r & Hr & Hm).
  vm_compute in Hr. injection Hr as <-. vm_compute in Hm. discriminate Hm.
Qed.

Lemma prepare_segment_modality_witness :
  exists r,
    nth_error (data (prepare_segment no_text_number sample_cohort)) 0 = Some r
    /\ mod_bacen r
       = modality_with "DESCONHECIDO" (sample_contract "c1" (CNum 0) (CNum 30) None)
    /\ (raw_mod_bacen (sample_contract "c1" (CNum 0) (CNum 30) None) = None ->
        mod_bacen r = "DESCONHECIDO"%string)
    /\ In (dummy_name (mod_bacen r))
          (onehot_columns (prepare_segment no_text_number sample_cohort))
    /\ forall col,
         In col (onehot_columns (prepare_segment no_text_number sample_cohort)) ->
         value_at (prepare_segment no_text_number sample_cohort) r col
         = Some (if String.eqb col (dummy_name (mod_bacen r)) then 1%Q else 0%Q).
Proof.
  apply (@prepare_segment_modality no_text_number sample_cohort 0%nat).
  reflexivity.
Defined.

Lemma prepare_segment_median_imputation_witness :
  exists r,
    nth_error (data (prepare_segment no_text_number sample_cohort)) 1 = Some r
    /\ cliente_id r = Some "c2"%string
    /\ valor_contrato r
       = median (map (fun s => to_numeric no_text_number (raw_valor_contrato s))
                     (survivors no_text_number sample_cohort))
    /\ saldo_atual r = Some 7%Q.
Proof.
  apply (@prepare_segment_median_imputation no_text_number sample_cohort 1%nat
           (sample_contract "c2" (CNum 4) CNull (Some "a01"%string))).
  reflexivity.
Defined.

(** ** Driver *)

Section DriverFacts.

Variable round_2 : Q -> Q.
Variable parse_number : string -> float.
Variable KMeans_fit_predict : Z -> nat -> ndarray -> list Z.
Variable KMeans_cluster_centers : Z -> nat -> ndarray -> list (list float).
Variable silhouette_score : ndarray -> list Z -> Q.
Variable factor_fit_transform : list (list float) -> Z -> res ndarray.

Let build :=
  build_segment_outputs round_2 parse_number KMeans_fit_predict KMeans_cluster_centers
                        silhouette_score factor_fit_transform.

(** C2: on a cohort of fewer than 25 raw records, or whose prepared
    frame has fewer than 5 rows, [build_segment_outputs] returns
    [None] without raising; the files, the store and the identifier
    source are left as they were, and the log gains one warning. *)
Theorem build_segment_outputs_skip
  (perfil : string) (df_segment : list contract) (engine : option Engine) (w : world) :
  (length df_segment < 25)%nat
  \/ (length (data (prepare_segment parse_number df_segment)) < 5)%nat ->
  exists entry,
    is_warning entry = true
    /\ build perfil df_segment engine w
       = (Ok None, mk_world (files w) (store w) (log w ++ [entry]) (next_uuid w)).
Proof.
  intros Few. unfold build, build_segment_outputs, ensure_minimum_samples.
  destruct (Nat.leb_spec 25 (length df_segment)) as [Enough|Short]; cbn [negb].
  - destruct Few as [Few|Few]; [lia|].
    assert (E : ((length (data (prepare_segment parse_number df_segment)) =? 0)%nat
                 || (length (data (prepare_segment parse_number df_segment)) <? 5)%nat)
                = true).
    { apply orb_true_iff. right. now apply Nat.ltb_lt. }
    rewrite E.
    exists (WarnTooFewAfterCleaning perfil). split; reflexivity.
  - exists (WarnTooFewRecords perfil (length df_segment)). split; reflexivity.
Qed.

End DriverFacts.

Lemma build_segment_outputs_skip_witness :
  exists entry,
    is_warning entry = true
    /\ build_segment_outputs round2 no_text_number toy_fit_predict toy_centers
         toy_silhouette toy_factor_fit "PF" sample_cohort (Some engine_handle)
         empty_world
       = (Ok None,
          mk_world (files empty_world) (store empty_world)
                   (log empty_world ++ [entry]) (next_uuid empty_world)).
Proof.
  apply (@build_segment_outputs_skip round2 no_text_number toy_fit_predict toy_centers
           toy_silhouette toy_factor_fit "PF"%string sample_cohort
           (Some engine_handle) empty_world).
  left. vm_compute. lia.
Defined.

(** A cohort that passes both thresholds is not skipped: with the
    stand-in models the driver writes its two files and one run. *)
Example build_segment_outputs_full_cohort :
  let '(result, w) :=
    build_segment_outputs round2 no_text_number toy_fit_predict toy_centers
      toy_silhouette toy_factor_fit "PF" full_cohort (Some engine_handle)
      empty_world in
  (match result with Ok (Some out) => length out | _ => 0%nat end) = 30%nat
  /\ map fst (files w)
     = [ "perfil_pf_cluster_summary.csv"; "perfil_pf_clusters.csv" ]%string
  /\ map n_clusters (store w) = [2%Z]
  /\ map n_components (store w) = [3%Z]
  /\ next_uuid w = 1%nat.
Proof. vm_compute. repeat split. Qed.


(* ================================================================== *)
(** * Further properties of the code *)

(** ** [slugify] *)

Lemma collapse_cons (c : ascii) (r : string) :
  collapse_underscores (String c r)
  = if (Ascii.eqb c "_" && starts_with_underscore r)%bool
    then collapse_underscores r
    else String c (collapse_underscores r).
Proof.
  destruct r as [|d r']; [|reflexivity].
  cbn. now rewrite andb_false_r.
Qed.

Lemma has_pair_cons (c : ascii) (r : string) :
  has_pair (String c r)
  = ((Ascii.eqb c "_" && starts_with_underscore r) || has_pair r)%bool.
Proof.
  destruct r as [|d r']; [|reflexivity].
  cbn. now rewrite andb_false_r.
Qed.

Lemma replace_pairs_cons2 (c d : ascii) (r : string) :
  replace_pairs (String c (String d r))
  = if (Ascii.eqb c "_" && Ascii.eqb d "_")%bool
    then String "_" (replace_pairs r)
    else String c (replace_pairs (String d r)).
Proof. reflexivity. Qed.

Lemma starts_replace_pairs (s : string) :
  starts_with_underscore (replace_pairs s) = starts_with_underscore s.
Proof.
  destruct s as [|c [|d r]]; try reflexivity.
  rewrite replace_pairs_cons2.
  destruct (Ascii.eqb c "_") eqn:Ec; [|reflexivity].
  destruct (Ascii.eqb d "_"); cbn; rewrite ?Ec; reflexivity.
Qed.

Lemma starts_collapse (s : string) :
  starts_with_underscore (collapse_underscores s) = starts_with_underscore s.
Proof.
  induction s as [|c r IH]; [reflexivity|].
  rewrite collapse_cons. cbn [starts_with_underscore].
  destruct (Ascii.eqb c "_") eqn:Ec; cbn [andb]; [|cbn; exact Ec].
  destruct (starts_with_underscore r) eqn:Er.
  - now rewrite IH.
  - cbn. exact Ec.
Qed.

(** A pass of [replace] changes nothing of what the loop ends with. *)
Lemma collapse_replace_pairs (n : nat) (s : string) :
  (String.length s <= n)%nat ->
  collapse_underscores (replace_pairs s) = collapse_underscores s.
Proof.
  revert s. induction n as [|n IH]; intros s Hn.
  - destruct s; [reflexivity|cbn in Hn; lia].
  - destruct s as [|c [|d r]]; try reflexivity.
    cbn [String.length] in Hn.
    rewrite replace_pairs_cons2.
    destruct (Ascii.eqb c "_") eqn:Ec; cbn [andb].
    + destruct (Ascii.eqb d "_") eqn:Ed.
      * apply Ascii.eqb_eq in Ec, Ed. subst c d.
        rewrite (collapse_cons "_" (String "_" r)). cbn [starts_with_underscore Ascii.eqb andb].
        change (Ascii.eqb "_" "_") with true. cbn [andb].
        rewrite !collapse_cons, starts_replace_pairs.
        rewrite (IH r) by lia. reflexivity.
      * rewrite !(collapse_cons c). rewrite starts_replace_pairs.
        rewrite (IH (String d r)) by (cbn; lia). reflexivity.
    + rewrite !(collapse_cons c), Ec. cbn [andb].
      rewrite (IH (String d r)) by (cbn; lia). reflexivity.
Qed.

Lemma replace_pairs_length (n : nat) (s : string) :
  (String.length s <= n)%nat ->
  (String.length (replace_pairs s) <= String.length s)%nat
  /\ (has_pair s = true ->
      (String.length (replace_pairs s) < String.length s)%nat).
Proof.
  revert s. induction n as [|n IH]; intros s Hn.
  - destruct s; [cbn; split; [lia|discriminate]|cbn in Hn; lia].
  - destruct s as [|c [|d r]]; try (cbn; split; [lia|discriminate]).
    cbn [String.length] in Hn.
    rewrite replace_pairs_cons2, has_pair_cons.
    cbn [starts_with_underscore].
    destruct (Ascii.eqb c "_" && Ascii.eqb d "_")%bool; cbn [orb String.length].
    + destruct (IH r) as [Le _]; [lia|]. split; [lia|]. intros _. lia.
    + destruct (IH (String d r)) as [Le Lt]; [cbn; lia|].
      cbn [String.length] in Le, Lt. split; [lia|].
      intros Hp. specialize (Lt Hp). lia.
Qed.

Lemma collapse_no_pair (s : string) :
  has_pair s = false -> collapse_underscores s = s.
Proof.
  induction s as [|c r IH]; [reflexivity|].
  rewrite has_pair_cons, collapse_cons. intros H.
  apply orb_false_iff in H. destruct H as [H1 H2].
  rewrite H1. f_equal. now apply IH.
Qed.

Lemma has_pair_collapse (s : string) :
  has_pair (collapse_underscores s) = false.
Proof.
  induction s as [|c r IH]; [reflexivity|].
  rewrite collapse_cons.
  destruct (Ascii.eqb c "_" && starts_with_underscore r)%bool eqn:E; [exact IH|].
  rewrite has_pair_cons, starts_collapse, E, IH. reflexivity.
Qed.

(** X1: the [while] loop of [slugify] ends within as many rounds as
    the string has characters; it leaves no double underscore, and its
    result is the string with every run of underscores collapsed to
    one. *)
Theorem collapse_loop_collapses (fuel : nat) (slug : string) :
  (String.length slug <= fuel)%nat ->
  has_pair (collapse_loop fuel slug) = false
  /\ collapse_loop fuel slug = collapse_underscores slug.
Proof.
  intros Hn.
  assert (E : collapse_loop fuel slug = collapse_underscores slug).
  { revert slug Hn. induction fuel as [|fuel IH]; intros slug Hn.
    - destruct slug; [reflexivity|cbn in Hn; lia].
    - cbn [collapse_loop]. destruct (has_pair slug) eqn:Hp.
      + destruct (replace_pairs_length (n := String.length slug) slug (le_n _))
          as [_ Lt].
        specialize (Lt Hp).
        rewrite IH by lia.
        exact (collapse_replace_pairs (n := String.length slug) slug (le_n _)).
      + symmetry. now apply collapse_no_pair. }
  rewrite E. split; [apply has_pair_collapse|reflexivity].
Qed.

Lemma collapse_loop_collapses_witness :
  has_pair (collapse_loop 9 "a___b__c") = false
  /\ collapse_loop 9 "a___b__c" = collapse_underscores "a___b__c".
Proof.
  apply (@collapse_loop_collapses 9 "a___b__c"). vm_compute. lia.
Defined.


Lemma underscore_test_sym (c : ascii) : Ascii.eqb "_" c = Ascii.eqb c "_".
Proof. apply Ascii.eqb_sym. Qed.

Lemma slug_char_ok (c : ascii) : slug_ok_char (slug_char c) = true.
Proof. destruct c as [[] [] [] [] [] [] [] []]; reflexivity. Qed.

Lemma slug_char_fixed (c : ascii) : slug_ok_char c = true -> slug_char c = c.
Proof. destruct c as [[] [] [] [] [] [] [] []]; intros H; try reflexivity; discriminate H. Qed.

Lemma slug_char_upper (c : ascii) : slug_char (Str.upper_char c) = slug_char c.
Proof. destruct c as [[] [] [] [] [] [] [] []]; reflexivity. Qed.

Lemma all_chars_slug_chars (v : string) :
  all_chars slug_ok_char (slug_chars v) = true.
Proof.
  induction v as [|c r IH]; [reflexivity|].
  cbn [slug_chars all_chars]. now rewrite slug_char_ok, IH.
Qed.

Lemma all_chars_collapse (p : ascii -> bool) (s : string) :
  all_chars p s = true -> all_chars p (collapse_underscores s) = true.
Proof.
  induction s as [|c r IH]; [reflexivity|].
  cbn [all_chars]. intros H. apply andb_true_iff in H. destruct H as [Hc Hr].
  rewrite collapse_cons.
  destruct (Ascii.eqb c "_" && starts_with_underscore r)%bool; [now apply IH|].
  cbn [all_chars]. now rewrite Hc, IH.
Qed.

Lemma all_chars_lstrip (p q : ascii -> bool) (s : string) :
  all_chars p s = true -> all_chars p (Str.lstrip_by q s) = true.
Proof.
  induction s as [|c r IH]; [reflexivity|].
  intros H. cbn [Str.lstrip_by]. destruct (q c); [|exact H].
  cbn [all_chars] in H. apply andb_true_iff in H. now apply IH.
Qed.

Lemma rstrip_cons (q : ascii -> bool) (c : ascii) (r : string) :
  Str.rstrip_by q (String c r)
  = match Str.rstrip_by q r with
    | EmptyString => if q c then EmptyString else String c EmptyString
    | r' => String c r'
    end.
Proof. reflexivity. Qed.

Lemma all_chars_rstrip (p q : ascii -> bool) (s : string) :
  all_chars p s = true -> all_chars p (Str.rstrip_by q s) = true.
Proof.
  induction s as [|c r IH]; [reflexivity|].
  cbn [all_chars]. intros H. apply andb_true_iff in H. destruct H as [Hc Hr].
  rewrite rstrip_cons. specialize (IH Hr).
  destruct (Str.rstrip_by q r) as [|d r'].
  - destruct (q c); cbn [all_chars]; [reflexivity|now rewrite Hc].
  - cbn [all_chars] in *. now rewrite Hc, IH.
Qed.

Lemma starts_rstrip (q : ascii -> bool) (s : string) :
  Str.rstrip_by q s <> EmptyString ->
  starts_with_underscore (Str.rstrip_by q s) = starts_with_underscore s.
Proof.
  destruct s as [|c r]; [reflexivity|].
  rewrite rstrip_cons.
  destruct (Str.rstrip_by q r); [|reflexivity].
  destruct (q c); [congruence|reflexivity].
Qed.

Lemma has_pair_lstrip (q : ascii -> bool) (s : string) :
  has_pair s = false -> has_pair (Str.lstrip_by q s) = false.
Proof.
  induction s as [|c r IH]; [reflexivity|].
  intros H. cbn [Str.lstrip_by]. destruct (q c); [|exact H].
  rewrite has_pair_cons in H. apply orb_false_iff in H. now apply IH.
Qed.

Lemma has_pair_rstrip (q : ascii -> bool) (s : string) :
  has_pair s = false -> has_pair (Str.rstrip_by q s) = false.
Proof.
  induction s as [|c r IH]; [reflexivity|].
  rewrite has_pair_cons. intros H. apply orb_false_iff in H.
  destruct H as [H1 H2]. specialize (IH H2).
  rewrite rstrip_cons.
  destruct (Str.rstrip_by q r) as [|d r'] eqn:E.
  - now destruct (q c).
  - rewrite has_pair_cons, IH, orb_false_r.
    rewrite <- E, starts_rstrip by (rewrite E; discriminate). exact H1.
Qed.

Lemma starts_lstrip (s : string) :
  starts_with_underscore (Str.lstrip_by (Ascii.eqb "_") s) = false.
Proof.
  induction s as [|c r IH]; [reflexivity|].
  cbn [Str.lstrip_by]. destruct (Ascii.eqb "_" c) eqn:E; [exact IH|].
  cbn [starts_with_underscore]. now rewrite <- underscore_test_sym.
Qed.

Lemma ends_cons (c : ascii) (r : string) :
  ends_with_underscore (String c r)
  = match r with
    | EmptyString => Ascii.eqb c "_"
    | _ => ends_with_underscore r
    end.
Proof. now destruct r. Qed.

Lemma ends_rstrip (s : string) :
  ends_with_underscore (Str.rstrip_by (Ascii.eqb "_") s) = false.
Proof.
  induction s as [|c r IH]; [reflexivity|].
  rewrite rstrip_cons.
  destruct (Str.rstrip_by (Ascii.eqb "_") r) as [|d r'].
  - destruct (Ascii.eqb "_" c) eqn:E; [reflexivity|].
    cbn [ends_with_underscore]. now rewrite <- underscore_test_sym.
  - rewrite ends_cons. exact IH.
Qed.

Lemma lstrip_fixed (s : string) :
  starts_with_underscore s = false -> Str.lstrip_by (Ascii.eqb "_") s = s.
Proof.
  destruct s as [|c r]; [reflexivity|].
  cbn [Str.lstrip_by starts_with_underscore].
  rewrite underscore_test_sym. now intros ->.
Qed.

Lemma rstrip_fixed (s : string) :
  ends_with_underscore s = false -> Str.rstrip_by (Ascii.eqb "_") s = s.
Proof.
  induction s as [|c r IH]; [reflexivity|].
  rewrite ends_cons, rstrip_cons. destruct r as [|d r'].
  - cbn [Str.rstrip_by]. rewrite underscore_test_sym. now intros ->.
  - intros H. rewrite (IH H). reflexivity.
Qed.

Lemma slug_chars_fixed (t : string) :
  all_chars slug_ok_char t = true -> slug_chars t = t.
Proof.
  induction t as [|c r IH]; [reflexivity|].
  cbn [all_chars slug_chars]. intros H. apply andb_true_iff in H.
  destruct H as [Hc Hr]. now rewrite (slug_char_fixed _ Hc), IH.
Qed.

Lemma slug_chars_upper (v : string) : slug_chars (Str.upper v) = slug_chars v.
Proof.
  induction v as [|c r IH]; [reflexivity|].
  cbn [Str.upper slug_chars]. now rewrite slug_char_upper, IH.
Qed.

(** The stripped, collapsed string is a slug whenever it is not
    empty. *)
Lemma stripped_well_formed (v : string) :
  let t := Str.strip_by (Ascii.eqb "_") (collapse_underscores (slug_chars v)) in
  t <> EmptyString -> well_formed_slug t.
Proof.
  intros t Hne. unfold t, Str.strip_by in *.
  set (u := collapse_underscores (slug_chars v)) in *.
  assert (Hu : all_chars slug_ok_char u = true)
    by apply all_chars_collapse, all_chars_slug_chars.
  assert (Hp : has_pair u = false) by apply has_pair_collapse.
  repeat split.
  - exact Hne.
  - now apply all_chars_rstrip, all_chars_lstrip.
  - now apply has_pair_rstrip, has_pair_lstrip.
  - rewrite starts_rstrip by exact Hne. apply starts_lstrip.
  - apply ends_rstrip.
Qed.

Lemma slugify_of_well_formed (t : string) :
  well_formed_slug t -> slugify t = t.
Proof.
  intros (Hne & Hc & Hp & Hs & He). unfold slugify, Str.strip_by.
  rewrite (slug_chars_fixed _ Hc), (collapse_no_pair _ Hp),
    (lstrip_fixed _ Hs), (rstrip_fixed _ He).
  destruct t; [congruence|reflexivity].
Qed.

Lemma slugify_well_formed_any (value : string) :
  well_formed_slug (slugify value).
Proof.
  unfold slugify.
  pose proof (stripped_well_formed value) as W. cbv zeta in W.
  destruct (Str.strip_by (Ascii.eqb "_") (collapse_underscores (slug_chars value)))
    as [|c r].
  - repeat split; try reflexivity. discriminate.
  - apply W. discriminate.
Qed.

(** X2: on an ASCII tag, [slugify] yields a file-name part that is
    never empty, holds only lower-case letters, digits and
    underscores, has no two underscores in a row and none at either
    end. *)
Theorem slugify_well_formed (value : string) :
  is_ascii value = true -> well_formed_slug (slugify value).
Proof. intros _. apply slugify_well_formed_any. Qed.

Lemma slugify_well_formed_witness :
  well_formed_slug (slugify "Pessoa  Fisica -- 01_").
Proof. apply (@slugify_well_formed "Pessoa  Fisica -- 01_"). reflexivity. Defined.

(** X3: [slugify] is idempotent on ASCII tags: a slug is its own
    slug, so a file name can be derived again from a slug without
    change. *)
Theorem slugify_idempotent (value : string) :
  is_ascii value = true -> slugify (slugify value) = slugify value.
Proof.
  intros _. apply slugify_of_well_formed, slugify_well_formed_any.
Qed.

Lemma slugify_idempotent_witness :
  slugify (slugify "Pessoa  Fisica -- 01_") = slugify "Pessoa  Fisica -- 01_".
Proof. apply (@slugify_idempotent "Pessoa  Fisica -- 01_"). reflexivity. Defined.

(** X4: on ASCII tags [slugify] ignores case: a tag and its
    upper-cased form get the same slug, hence the same output
    files. *)
Theorem slugify_ignores_case (value : string) :
  is_ascii value = true -> slugify (Str.upper value) = slugify value.
Proof.
  intros _. unfold slugify. now rewrite slug_chars_upper.
Qed.

Lemma slugify_ignores_case_witness :
  slugify (Str.upper "Pessoa Fisica") = slugify "Pessoa Fisica".
Proof. apply (@slugify_ignores_case "Pessoa Fisica"). reflexivity. Defined.


(** ** The risk scale *)

Lemma index_of_nth (x : string) (l : list string) (i : nat) :
  index_of x l = Some i -> nth_error l i = Some x /\ (i < length l)%nat.
Proof.
  revert i. induction l as [|y r IH]; intros i H; [discriminate H|].
  cbn [index_of] in H. destruct (String.eqb_spec x y) as [->|Ne].
  - injection H as <-. cbn. split; [reflexivity|lia].
  - destruct (index_of x r) as [j|]; [|discriminate H].
    injection H as <-. destruct (IH j eq_refl) as [Hn Hl].
    cbn. split; [exact Hn|lia].
Qed.

Lemma index_of_mem (x : string) (l : list string) :
  is_some (index_of x l) = mem String.eqb x l.
Proof.
  induction l as [|y r IH]; [reflexivity|].
  cbn [index_of mem existsb]. destruct (String.eqb x y); [reflexivity|].
  cbn [orb]. unfold mem in IH. rewrite <- IH.
  now destruct (index_of x r).
Qed.

(** X5: [RISK_MAP] and [RISK_ORDER] are inverse to each other: a name
    has score [i] exactly when [i] is between 0 and 11 and the name
    stands at position [i] of the scale; no two ratings share a
    score. *)
Theorem RISK_MAP_positions (name : string) (i : Z) :
  RISK_MAP name = Some i
  <-> (0 <= i < 12)%Z /\ nth_error RISK_ORDER (Z.to_nat i) = Some name.
Proof.
  unfold RISK_MAP. split.
  - destruct (index_of name RISK_ORDER) as [n|] eqn:E; [|discriminate].
    cbn [option_map]. intros H. injection H as <-.
    destruct (index_of_nth _ _ E) as [Hn Hl]. cbn [length RISK_ORDER] in Hl.
    rewrite Nat2Z.id. split; [lia|exact Hn].
  - intros [Hi Hn].
    assert (Ei : i = Z.of_nat (Z.to_nat i)) by lia.
    remember (Z.to_nat i) as n eqn:En. clear En. subst i.
    do 12 (destruct n as [|n]; [injection Hn as <-; reflexivity|]).
    lia.
Qed.

(** ** More on [prepare_segment] *)

Lemma median_some (l : list float) :
  present l <> [] -> exists m, median l = Some m.
Proof.
  intros Hne. unfold median.
  rewrite sorted_length.
  destruct (present l) as [|x r] eqn:E; [congruence|].
  cbn [length]. destruct (Nat.odd (S (length r))); eexists; reflexivity.
Qed.

Lemma median_none (l : list float) : present l = [] -> median l = None.
Proof. intros E. unfold median. now rewrite E. Qed.

Lemma median_between (l : list float) (lo hi m : Q) :
  (forall x, In x (present l) -> (lo <= x <= hi)%Q) ->
  median l = Some m -> (lo <= m <= hi)%Q.
Proof.
  intros Hb. unfold median.
  set (s := sorted Qleb (present l)).
  assert (Hs : forall k, (k < length s)%nat -> (lo <= nth k s 0 <= hi)%Q).
  { intros k Hk. apply Hb. apply (sorted_In Qleb). now apply nth_In. }
  destruct (length s) as [|n] eqn:En; [discriminate|].
  assert (H2 : (S n / 2 < S n)%nat) by (apply Nat.div_lt; lia).
  assert (H1 : (S n / 2 - 1 < S n)%nat) by lia.
  pose proof (Hs _ H1) as B1. pose proof (Hs _ H2) as B2.
  destruct (Nat.odd (S n)); intros H; injection H as <-.
  - exact B2.
  - change (lo <= (nth (S n / 2 - 1) s 0 + nth (S n / 2) s 0) / 2 <= hi)%Q.
    set (a := nth (S n / 2 - 1) s 0) in *. set (b := nth (S n / 2) s 0) in *.
    unfold Qdiv. change (/ 2)%Q with (1 # 2)%Q. lra.
Qed.

Section PreparerMore.

Variable parse_number : string -> float.

Let prepare := prepare_segment parse_number.

Lemma prepared_row_origin (df : list contract) (r : row) :
  In r (data (prepare df)) ->
  exists c, In c (survivors parse_number df)
            /\ r = finish (map (coerce parse_number) (survivors parse_number df))
                          (coerce parse_number c).
Proof.
  intros H. unfold prepare in H.
  rewrite (proj1 (prepare_segment_frame parse_number df)) in H.
  apply in_map_iff in H. destruct H as (r0 & <- & H0).
  apply in_map_iff in H0. destruct H0 as (c & <- & Hc).
  now exists c.
Qed.

Lemma survives_iff (c : contract) :
  survives parse_number c
  = (rating_known c
     && is_some (to_numeric parse_number (raw_cob_garantia c))
     && is_some (to_numeric parse_number (raw_atraso c)))%bool.
Proof.
  unfold survives, has_core_drivers, rating_known.
  cbn [coerce risco_inicial_score cob_garantia atraso].
  destruct (raw_risco_inicial c) as [s|]; cbn [option_map]; [|reflexivity].
  unfold RISK_MAP. rewrite <- index_of_mem.
  now destruct (index_of (Str.strip (Str.upper s)) RISK_ORDER).
Qed.

(** X6: every row of the prepared frame has its three core drivers:
    numeric coverage and delinquency, and a risk score between 0 and
    11 that is the position of the row's normalised rating on the
    scale. *)
Theorem prepared_rows_have_core_drivers (df : list contract) (r : row) :
  In r (data (prepare df)) ->
  exists name score cob atr,
    risco_inicial r = Some name
    /\ risco_inicial_score r = Some score
    /\ (0 <= score <= 11)%Z
    /\ nth_error RISK_ORDER (Z.to_nat score) = Some name
    /\ cob_garantia r = Some cob
    /\ atraso r = Some atr.
Proof.
  intros H. destruct (prepared_row_origin df r H) as (c & Hc & ->).
  unfold survivors in Hc. apply filter_In in Hc. destruct Hc as [_ Hs].
  unfold survives, has_core_drivers in Hs.
  apply andb_true_iff in Hs. destruct Hs as [Hs Ha].
  apply andb_true_iff in Hs. destruct Hs as [Hr Hb].
  cbn [finish set_dummies set_saldo_atual set_valor_contrato
       risco_inicial risco_inicial_score cob_garantia atraso].
  destruct (risco_inicial_score (coerce parse_number c)) as [score|] eqn:Es;
    [|discriminate Hr].
  destruct (cob_garantia (coerce parse_number c)) as [cob|]; [|discriminate Hb].
  destruct (atraso (coerce parse_number c)) as [atr|]; [|discriminate Ha].
  cbn [coerce risco_inicial_score risco_inicial] in Es |- *.
  destruct (raw_risco_inicial c) as [s|]; cbn [option_map] in Es |- *;
    [|discriminate Es].
  unfold RISK_MAP in Es.
  destruct (index_of (Str.strip (Str.upper s)) RISK_ORDER) as [n|] eqn:En;
    [|discriminate Es].
  cbn [option_map] in Es. injection Es as <-.
  destruct (index_of_nth _ _ En) as [Hn Hl]. cbn [length RISK_ORDER] in Hl.
  exists (Str.strip (Str.upper s)), (Z.of_nat n), cob, atr.
  rewrite Nat2Z.id. repeat split; try reflexivity; try lia. exact Hn.
Qed.

(** X7: on a table whose ratings are ASCII, [prepare_segment] keeps
    exactly the records whose normalised rating is on the scale and
    whose coverage and delinquency are numbers, in the order of the
    input and with their descriptive columns untouched; it adds no
    row. *)
Theorem prepare_segment_keeps_known_records (df : list contract) :
  ascii_ratings df ->
  map identity_of (data (prepare df))
  = map raw_identity_of
        (filter (fun c =>
                   rating_known c
                   && is_some (to_numeric parse_number (raw_cob_garantia c))
                   && is_some (to_numeric parse_number (raw_atraso c)))%bool
                df)
  /\ (length (data (prepare df)) <= length df)%nat.
Proof.
  intros _.
  assert (E : data (prepare df)
              = map (fun c => finish (map (coerce parse_number)
                                          (survivors parse_number df))
                                     (coerce parse_number c))
                    (survivors parse_number df)).
  { unfold prepare. rewrite (proj1 (prepare_segment_frame parse_number df)).
    now rewrite map_map. }
  split.
  - rewrite E, map_map. unfold survivors.
    rewrite (filter_ext _ _ survives_iff). now apply map_ext.
  - rewrite E, length_map. unfold survivors. apply filter_length_le.
Qed.

(** X8: after [prepare_segment] a money column (contract value,
    balance) has no missing value left as soon as one surviving record
    has a number there; it is missing on every row when no surviving
    record has one. *)
Theorem prepare_segment_imputes_all_or_nothing (df : list contract) :
  ((exists c, In c (survivors parse_number df)
              /\ to_numeric parse_number (raw_valor_contrato c) <> None) ->
   forall r, In r (data (prepare df)) -> valor_contrato r <> None)
  /\ ((forall c, In c (survivors parse_number df) ->
                 to_numeric parse_number (raw_valor_contrato c) = None) ->
      forall r, In r (data (prepare df)) -> valor_contrato r = None)
  /\ ((exists c, In c (survivors parse_number df)
                 /\ to_numeric parse_number (raw_saldo_atual c) <> None) ->
      forall r, In r (data (prepare df)) -> saldo_atual r <> None)
  /\ ((forall c, In c (survivors parse_number df) ->
                 to_numeric parse_number (raw_saldo_atual c) = None) ->
      forall r, In r (data (prepare df)) -> saldo_atual r = None).
Proof.
  set (W := map (coerce parse_number) (survivors parse_number df)).
  assert (Some_case : forall (raw : contract -> cell) (col : row -> float),
    (forall c, col (coerce parse_number c) = to_numeric parse_number (raw c)) ->
    (exists c, In c (survivors parse_number df)
               /\ to_numeric parse_number (raw c) <> None) ->
    exists m, median (map col W) = Some m).
  { intros raw col Hcol (c & Hc & Hv). apply median_some.
    destruct (to_numeric parse_number (raw c)) as [v|] eqn:Ev; [|congruence].
    intros Hnil.
    assert (Hin : In v (present (map col W))).
    { apply present_In, in_map_iff. exists (coerce parse_number c).
      split; [now rewrite Hcol|]. unfold W. now apply in_map. }
    rewrite Hnil in Hin. contradiction. }
  assert (None_case : forall (raw : contract -> cell) (col : row -> float),
    (forall c, col (coerce parse_number c) = to_numeric parse_number (raw c)) ->
    (forall c, In c (survivors parse_number df) ->
               to_numeric parse_number (raw c) = None) ->
    median (map col W) = None).
  { intros raw col Hcol Hall. apply median_none.
    destruct (present (map col W)) as [|v rest] eqn:Ep; [reflexivity|].
    assert (Hin : In v (present (map col W))) by (rewrite Ep; now left).
    apply present_In, in_map_iff in Hin. destruct Hin as (r0 & Hr0 & Hin).
    unfold W in Hin. apply in_map_iff in Hin. destruct Hin as (c & <- & Hc).
    rewrite Hcol, (Hall c Hc) in Hr0. discriminate Hr0. }
  repeat split.
  - intros Hex r Hr. destruct (prepared_row_origin df r Hr) as (c & Hc & ->).
    fold W. cbn [finish set_dummies set_saldo_atual set_valor_contrato valor_contrato].
    destruct (Some_case raw_valor_contrato valor_contrato (fun _ => eq_refl) Hex)
      as (m & ->).
    unfold fillna. now destruct (valor_contrato (coerce parse_number c)).
  - intros Hall r Hr. destruct (prepared_row_origin df r Hr) as (c & Hc & ->).
    fold W. cbn [finish set_dummies set_saldo_atual set_valor_contrato valor_contrato].
    rewrite (None_case raw_valor_contrato valor_contrato (fun _ => eq_refl) Hall).
    unfold fillna.
    change (valor_contrato (coerce parse_number c))
      with (to_numeric parse_number (raw_valor_contrato c)).
    now rewrite (Hall c Hc).
  - intros Hex r Hr. destruct (prepared_row_origin df r Hr) as (c & Hc & ->).
    fold W. cbn [finish set_dummies set_saldo_atual set_valor_contrato saldo_atual].
    destruct (Some_case raw_saldo_atual saldo_atual (fun _ => eq_refl) Hex)
      as (m & ->).
    unfold fillna. now destruct (saldo_atual (coerce parse_number c)).
  - intros Hall r Hr. destruct (prepared_row_origin df r Hr) as (c & Hc & ->).
    fold W. cbn [finish set_dummies set_saldo_atual set_valor_contrato saldo_atual].
    rewrite (None_case raw_saldo_atual saldo_atual (fun _ => eq_refl) Hall).
    unfold fillna.
    change (saldo_atual (coerce parse_number c))
      with (to_numeric parse_number (raw_saldo_atual c)).
    now rewrite (Hall c Hc).
Qed.

End PreparerMore.


Lemma NoDup_map_dummy_name (l : list string) :
  NoDup l -> NoDup (map dummy_name l).
Proof.
  induction 1 as [|x r Hnin Hnd IH]; cbn [map]; constructor; [|exact IH].
  rewrite in_map_iff. intros (y & E & Hy).
  apply dummy_name_inj in E. now subst.
Qed.

Lemma dummy_columns_NoDup (values : list string) : NoDup (dummy_columns values).
Proof.
  unfold dummy_columns.
  apply NoDup_map_dummy_name, sorted_NoDup, unique_NoDup, String.eqb_eq.
Qed.

Section PreparedFrame.

Variable parse_number : string -> float.

Let prepare := prepare_segment parse_number.

Lemma feature_cols_of_prepared (df : list contract) :
  feature_cols_of (prepare df)
  = [ "cob_garantia"; "atraso"; "valor_contrato"; "saldo_atual";
      "risco_inicial_score" ]%string ++ onehot_columns (prepare df).
Proof.
  unfold feature_cols_of, columns. rewrite !filter_app.
  rewrite (filter_all_true is_feature_col (onehot_columns (prepare df))).
  - reflexivity.
  - intros col Hcol. apply onehot_columns_In in Hcol.
    destruct Hcol as (c & _ & ->). apply dummy_name_is_feature.
Qed.

(** X9: imputation never brings in a value from outside the cohort's
    own range: when the contract values (balances) that the surviving
    records do have lie between two bounds, so does every contract
    value (balance) of the prepared frame. *)
Theorem prepare_segment_imputation_in_range
  (df : list contract) (lo hi lo' hi' : Q) :
  (forall c v, In c (survivors parse_number df) ->
               to_numeric parse_number (raw_valor_contrato c) = Some v ->
               (lo <= v <= hi)%Q) ->
  (forall c v, In c (survivors parse_number df) ->
               to_numeric parse_number (raw_saldo_atual c) = Some v ->
               (lo' <= v <= hi')%Q) ->
  forall r, In r (data (prepare df)) ->
    (forall v, valor_contrato r = Some v -> (lo <= v <= hi)%Q)
    /\ (forall v, saldo_atual r = Some v -> (lo' <= v <= hi')%Q).
Proof.
  intros Hv Hs r Hr.
  destruct (prepared_row_origin parse_number df r Hr) as (c & Hc & ->).
  set (W := map (coerce parse_number) (survivors parse_number df)).
  assert (Col : forall (raw : contract -> cell) (col : row -> float) (a b : Q),
    (forall c, col (coerce parse_number c) = to_numeric parse_number (raw c)) ->
    (forall c v, In c (survivors parse_number df) ->
                 to_numeric parse_number (raw c) = Some v -> (a <= v <= b)%Q) ->
    forall v, fillna (median (map col W)) (col (coerce parse_number c)) = Some v ->
              (a <= v <= b)%Q).
  { intros raw col a b Hcol Hb v Hf. unfold fillna in Hf.
    destruct (col (coerce parse_number c)) as [x|] eqn:Ex.
    - injection Hf as <-. apply (Hb c x Hc). now rewrite <- Hcol.
    - apply (median_between (map col W)); [|exact Hf].
      intros x Hx. apply present_In, in_map_iff in Hx.
      destruct Hx as (r0 & Hr0 & Hin). unfold W in Hin.
      apply in_map_iff in Hin. destruct Hin as (c0 & <- & Hc0).
      apply (Hb c0 x Hc0). now rewrite <- Hcol. }
  split.
  - exact (Col raw_valor_contrato valor_contrato lo hi (fun _ => eq_refl) Hv).
  - exact (Col raw_saldo_atual saldo_atual lo' hi' (fun _ => eq_refl) Hs).
Qed.

(** X10: the one-hot columns of the prepared frame are pairwise
    distinct, and every row holds one indicator per column, all 0
    except a single 1 under the column named after the row's own
    modality. *)
Theorem prepared_rows_one_hot (df : list contract) (r : row) :
  In r (data (prepare df)) ->
  NoDup (onehot_columns (prepare df))
  /\ length (dummies r) = length (onehot_columns (prepare df))
  /\ exists i,
       nth_error (onehot_columns (prepare df)) i = Some (dummy_name (mod_bacen r))
       /\ forall j, (j < length (onehot_columns (prepare df)))%nat ->
            nth_error (dummies r) j = Some (if (j =? i)%nat then 1%Q else 0%Q).
Proof.
  intros Hr.
  destruct (prepared_row_origin parse_number df r Hr) as (c & Hc & ->).
  set (W := map (coerce parse_number) (survivors parse_number df)).
  set (cols := onehot_columns (prepare df)).
  assert (Ecols : cols = dummy_columns (map mod_bacen W))
    by apply (proj2 (prepare_segment_frame parse_number df)).
  assert (Nd : NoDup cols) by (rewrite Ecols; apply dummy_columns_NoDup).
  set (v := mod_bacen (finish W (coerce parse_number c))).
  assert (Ed : dummies (finish W (coerce parse_number c)) = dummy_row cols v)
    by (rewrite Ecols; reflexivity).
  assert (Hin : In (dummy_name v) cols).
  { unfold cols. apply onehot_columns_In. now exists c. }
  destruct (index_of_In _ _ Hin) as (i & _ & Hi).
  split; [exact Nd|]. split.
  - rewrite Ed. unfold dummy_row. apply length_map.
  - exists i. split; [exact Hi|].
    intros j Hj. rewrite Ed. unfold dummy_row. rewrite nth_error_map.
    destruct (nth_error cols j) as [cj|] eqn:Ej.
    2:{ apply nth_error_None in Ej. lia. }
    cbn [option_map]. f_equal.
    destruct (Nat.eqb_spec j i) as [->|Ne].
    + rewrite Hi in Ej. injection Ej as <-. now rewrite String.eqb_refl.
    + destruct (String.eqb_spec cj (dummy_name v)) as [->|]; [|reflexivity].
      exfalso. apply Ne.
      apply (proj1 (NoDup_nth_error cols) Nd j i Hj). now rewrite Ej, Hi.
Qed.

(** X11: in the pipeline the policy cap always binds: a prepared
    frame of at least 5 rows has at least 6 feature columns, so
    [run_factor_analysis] asks for exactly 3 components and hands
    back the factors of that fit, or its exception. *)
Theorem run_factor_analysis_three_components
  (factor_fit_transform : list (list float) -> Z -> res ndarray)
  (df : list contract) :
  (5 <= length (data (prepare df)))%nat ->
  let feature_cols := feature_cols_of (prepare df) in
  let feature_frame := select (prepare df) feature_cols in
  (6 <= length feature_cols)%nat
  /\ run_factor_analysis factor_fit_transform feature_frame (length feature_cols)
     = match factor_fit_transform feature_frame 3%Z with
       | Ok factors => Ok (factors, 3%Z)
       | Raise msg => Raise msg
       end.
Proof.
  intros Hn feature_cols feature_frame.
  assert (H6 : (6 <= length feature_cols)%nat).
  { unfold feature_cols. rewrite feature_cols_of_prepared, length_app.
    cbn [length].
    destruct (data (prepare df)) as [|r rest] eqn:Ed; [cbn in Hn; lia|].
    assert (Hr : In r (data (prepare df))) by (rewrite Ed; now left).
    destruct (prepared_row_origin parse_number df r Hr) as (c & Hc & _).
    assert (Hin : In (dummy_name (modality_with "DESCONHECIDO" c))
                     (onehot_columns (prepare df))).
    { apply onehot_columns_In. now exists c. }
    destruct (onehot_columns (prepare df)); [contradiction|cbn [length]; lia]. }
  split; [exact H6|].
  unfold run_factor_analysis.
  assert (E : choose_factor_components (length feature_frame) (length feature_cols)
              = 3%Z).
  { unfold feature_frame, select. rewrite length_map.
    unfold choose_factor_components. lia. }
  now rewrite E.
Qed.

End PreparedFrame.

Lemma prepared_rows_have_core_drivers_witness :
  exists name score cob atr,
    risco_inicial (finish (map (coerce no_text_number)
                               (survivors no_text_number sample_cohort))
                          (coerce no_text_number
                             (sample_contract "c1" (CNum 0) (CNum 30) None)))
    = Some name
    /\ risco_inicial_score
         (finish (map (coerce no_text_number)
                      (survivors no_text_number sample_cohort))
                 (coerce no_text_number
                    (sample_contract "c1" (CNum 0) (CNum 30) None)))
       = Some score
    /\ (0 <= score <= 11)%Z
    /\ nth_error RISK_ORDER (Z.to_nat score) = Some name
    /\ cob_garantia
         (finish (map (coerce no_text_number)
                      (survivors no_text_number sample_cohort))
                 (coerce no_text_number
                    (sample_contract "c1" (CNum 0) (CNum 30) None)))
       = Some cob
    /\ atraso
         (finish (map (coerce no_text_number)
                      (survivors no_text_number sample_cohort))
                 (coerce no_text_number
                    (sample_contract "c1" (CNum 0) (CNum 30) None)))
       = Some atr.
Proof.
  apply (@prepared_rows_have_core_drivers no_text_number sample_cohort).
  vm_compute. left. reflexivity.
Defined.


(** ** More on the selector *)

Lemma pick_cluster_count_bounds
  (KMeans_fit_predict : Z -> nat -> ndarray -> list Z)
  (silhouette_score : ndarray -> list Z -> Q)
  (factors : ndarray) :
  (1 <= fst (pick_cluster_count KMeans_fit_predict silhouette_score factors) <= 6)%Z.
Proof.
  destruct (pick_cluster_count_inv KMeans_fit_predict silhouette_score factors)
    as [[E _] | (R & _)].
  - rewrite E. cbn [fst]. lia.
  - lia.
Qed.

(** X12: whatever the fitted models return, [pick_cluster_count]
    answers a count between 1 and 6 that is 1 or below the number of
    samples, and a score that is never negative and is 0 exactly when
    the count is 1. *)
Theorem pick_cluster_count_range
  (KMeans_fit_predict : Z -> nat -> ndarray -> list Z)
  (silhouette_score : ndarray -> list Z -> Q)
  (factors : ndarray) :
  let k := fst (pick_cluster_count KMeans_fit_predict silhouette_score factors) in
  let score := snd (pick_cluster_count KMeans_fit_predict silhouette_score factors) in
  (1 <= k <= 6)%Z
  /\ (k = 1%Z \/ (k < Z.of_nat (shape0 factors))%Z)
  /\ (0 <= score)%Q
  /\ (k = 1%Z <-> (score == 0)%Q).
Proof.
  intros k score. unfold k, score.
  destruct (pick_cluster_count_inv KMeans_fit_predict silhouette_score factors)
    as [[E _] | (R & _ & _ & Pos & _)].
  - rewrite E. cbn [fst snd]. repeat split; try lia; auto.
    + apply Qle_refl.
  - repeat split; try lia.
    + now apply Qlt_le_weak.
    + intros E0. rewrite E0 in Pos. exfalso. exact (Qlt_irrefl _ Pos).
Qed.


(** ** More on the driver *)

Lemma summarize_clusters_ok (round_2 : Q -> Q) (df : list row) (labels : list Z) :
  length df = length labels ->
  summarize_clusters round_2 df labels
  = Ok (summarize_labeled round_2 (combine df labels)).
Proof.
  intros H. unfold summarize_clusters. now rewrite (proj2 (Nat.eqb_eq _ _) H).
Qed.

Section DriverRuns.

Variable round_2 : Q -> Q.
Variable parse_number : string -> float.
Variable KMeans_fit_predict : Z -> nat -> ndarray -> list Z.
Variable KMeans_cluster_centers : Z -> nat -> ndarray -> list (list float).
Variable silhouette_score : ndarray -> list Z -> Q.
Variable factor_fit_transform : list (list float) -> Z -> res ndarray.

Let build :=
  build_segment_outputs round_2 parse_number KMeans_fit_predict KMeans_cluster_centers
                        silhouette_score factor_fit_transform.
Let prepared (df : list contract) : frame := prepare_segment parse_number df.
Let pick (factors : ndarray) : Z * Q :=
  pick_cluster_count KMeans_fit_predict silhouette_score factors.
Let final (factors : ndarray) : cluster_payload :=
  cluster_factors KMeans_fit_predict KMeans_cluster_centers silhouette_score
                  factors (fst (pick factors)).
Let out_of (df : list contract) (factors : ndarray) : list client_out :=
  map (fun irl => mk_client_out (snd (fst irl)) (snd irl)
                    (factor_scores factors 3 (fst (fst irl))))
      (combine (combine (seq 0 (length (data (prepared df)))) (data (prepared df)))
               (labels (final factors))).
Let summary_of_run (df : list contract) (factors : ndarray) : list summary_row :=
  summarize_labeled round_2 (combine (data (prepared df)) (labels (final factors))).
Let files_of (perfil : string) (df : list contract) (factors : ndarray)
    (fs : list (string * csv)) : list (string * csv) :=
  (summary_path perfil, SummaryCsv (summary_of_run df factors))
    :: filter (fun f => negb (String.eqb (fst f) (summary_path perfil)))
              ((detailed_path perfil, DetailedCsv (out_of df factors))
                 :: filter (fun f => negb (String.eqb (fst f) (detailed_path perfil))) fs).
Let run_of (perfil : string) (df : list contract) (factors : ndarray) (id : nat)
    : cluster_run :=
  mk_run id perfil "factor_analysis_kmeans_v1" (feature_cols_of (prepared df)) 3
         (fst (pick factors)) (silhouette (final factors)) (snd (pick factors))
         (out_of df factors) (summary_of_run df factors).

Lemma choose_factor_components_prepared (df : list contract) :
  (5 <= length (data (prepared df)))%nat ->
  choose_factor_components
    (length (select (prepared df) (feature_cols_of (prepared df))))
    (length (feature_cols_of (prepared df))) = 3%Z.
Proof.
  intros Hn. unfold prepared in *.
  rewrite feature_cols_of_prepared, length_app. unfold select.
  rewrite length_map. cbn [length].
  destruct (data (prepare_segment parse_number df)) as [|r rest] eqn:Ed;
    [cbn in Hn; lia|].
  assert (Hr : In r (data (prepare_segment parse_number df)))
    by (rewrite Ed; now left).
  destruct (prepared_row_origin parse_number df r Hr) as (c & Hc & _).
  assert (Hin : In (dummy_name (modality_with "DESCONHECIDO" c))
                   (onehot_columns (prepare_segment parse_number df))).
  { apply onehot_columns_In. now exists c. }
  destruct (onehot_columns (prepare_segment parse_number df));
    [contradiction|].
  unfold choose_factor_components. cbn [length] in *. lia.
Qed.

(** The three ways [build_segment_outputs] can end. *)
Lemma build_segment_outputs_cases
  (perfil : string) (df : list contract) (engine : option Engine) (w : world) :
  ((length df < 25 \/ length (data (prepared df)) < 5)%nat
   /\ exists entry,
        is_warning entry = true
        /\ build perfil df engine w
           = (Ok None, mk_world (files w) (store w) (log w ++ [entry]) (next_uuid w)))
  \/ ((25 <= length df)%nat /\ (5 <= length (data (prepared df)))%nat
      /\ exists msg, build perfil df engine w = (Raise msg, w))
  \/ ((25 <= length df)%nat /\ (5 <= length (data (prepared df)))%nat
      /\ exists factors,
           factor_fit_transform
             (select (prepared df) (feature_cols_of (prepared df))) 3%Z
           = Ok factors
           /\ length (labels (final factors)) = length (data (prepared df))
           /\ build perfil df engine w
              = (Ok (Some (out_of df factors)),
                 match engine with
                 | Some _ =>
                     mk_world (files_of perfil df factors (files w))
                              (run_of perfil df factors (next_uuid w) :: store w)
                              (log w ++ [InfoPersisted perfil
                                           (length (summary_of_run df factors))
                                           (next_uuid w)
                                           (silhouette (final factors))])
                              (S (next_uuid w))
                 | None =>
                     mk_world (files_of perfil df factors (files w))
                              (store w)
                              (log w ++ [InfoNotPersisted perfil
                                           (length (summary_of_run df factors))])
                              (next_uuid w)
                 end)).
Proof.
  destruct (Nat.ltb_spec (length df) 25) as [Short|Enough].
  { left. split; [now left|].
    exists (WarnTooFewRecords perfil (length df)). split; [reflexivity|].
    unfold build, build_segment_outputs, ensure_minimum_samples.
    destruct (Nat.leb_spec 25 (length df)); [lia|reflexivity]. }
  destruct (Nat.ltb_spec (length (data (prepared df))) 5) as [Few|Many].
  { left. split; [now right|].
    exists (WarnTooFewAfterCleaning perfil). split; [reflexivity|].
    unfold build, build_segment_outputs, ensure_minimum_samples.
    destruct (Nat.leb_spec 25 (length df)); [|lia]. cbn [negb].
    fold (prepared df).
    rewrite (proj2 (Nat.ltb_lt _ _) Few), orb_true_r. reflexivity. }
  right.
  assert (Hbuild : build perfil df engine w
    = match factor_fit_transform
              (select (prepared df) (feature_cols_of (prepared df))) 3%Z with
      | Raise msg => (Raise msg, w)
      | Ok factors =>
          if negb (length (labels (final factors)) =? length (data (prepared df)))%nat
          then (Raise "ValueError: length of values does not match length of index", w)
          else
            (Ok (Some (out_of df factors)),
             match engine with
             | Some _ =>
                 mk_world (files_of perfil df factors (files w))
                          (run_of perfil df factors (next_uuid w) :: store w)
                          (log w ++ [InfoPersisted perfil
                                       (length (summary_of_run df factors))
                                       (next_uuid w)
                                       (silhouette (final factors))])
                          (S (next_uuid w))
             | None =>
                 mk_world (files_of perfil df factors (files w))
                          (store w)
                          (log w ++ [InfoNotPersisted perfil
                                       (length (summary_of_run df factors))])
                          (next_uuid w)
             end)
      end).
  { unfold build, build_segment_outputs, ensure_minimum_samples.
    destruct (Nat.leb_spec 25 (length df)); [|lia]. cbn [negb].
    fold (prepared df).
    assert (E0 : ((length (data (prepared df)) =? 0)%nat
                  || (length (data (prepared df)) <? 5)%nat) = false).
    { apply orb_false_iff. split; [apply Nat.eqb_neq; lia|apply Nat.ltb_ge; lia]. }
    rewrite E0. unfold run_factor_analysis.
    rewrite (choose_factor_components_prepared df Many).
    unfold bind at 1. unfold lift at 1.
    destruct (factor_fit_transform
                (select (prepared df) (feature_cols_of (prepared df))) 3%Z)
      as [factors|msg]; [|reflexivity].
    cbn [fst snd].
    fold (pick factors).
    destruct (pick factors) as [k ss] eqn:Ep.
    assert (Ek : k = fst (pick factors)) by now rewrite Ep.
    assert (Es : ss = snd (pick factors)) by now rewrite Ep.
    clear Ep.
    fold (pick factors) in Ek. subst k ss.
    change (cluster_factors KMeans_fit_predict KMeans_cluster_centers
              silhouette_score factors (fst (pick factors)))
      with (final factors).
    destruct (length (labels (final factors)) =? length (data (prepared df)))%nat
      eqn:El; cbn [negb]; [|reflexivity].
    apply Nat.eqb_eq in El.
    unfold bind, lift, ret, to_csv, logger, persist_cluster_run, uuid4, insert_run.
    rewrite (summarize_clusters_ok round_2 (data (prepared df)) (labels (final factors)))
      by (symmetry; exact El).
    destruct engine; reflexivity. }
  destruct (factor_fit_transform
              (select (prepared df) (feature_cols_of (prepared df))) 3%Z)
    as [factors|msg] eqn:Efit.
  - destruct (length (labels (final factors)) =? length (data (prepared df)))%nat
      eqn:El; cbn [negb] in Hbuild.
    + right. split; [exact Enough|]. split; [exact Many|].
      exists factors. split; [reflexivity|]. split; [now apply Nat.eqb_eq|].
      exact Hbuild.
    + left. split; [exact Enough|]. split; [exact Many|]. eexists. exact Hbuild.
  - left. split; [exact Enough|]. split; [exact Many|]. eexists. exact Hbuild.
Qed.

Lemma lookup_file_filter (path other : string) (fs : list (string * csv)) :
  path <> other ->
  lookup_file path (filter (fun f => negb (String.eqb (fst f) other)) fs)
  = lookup_file path fs.
Proof.
  intros Ne. unfold lookup_file. f_equal.
  induction fs as [|[p c] r IH]; [reflexivity|].
  cbn [filter find fst].
  destruct (String.eqb_spec p other) as [->|Np]; cbn [negb].
  - destruct (String.eqb_spec other path) as [E|_]; [congruence|exact IH].
  - cbn [find fst]. now rewrite IH.
Qed.

Lemma lookup_file_head (path : string) (c : csv) (fs : list (string * csv)) :
  lookup_file path ((path, c) :: fs) = Some c.
Proof. unfold lookup_file. cbn [find fst]. now rewrite String.eqb_refl. Qed.

Lemma lookup_file_tail (path other : string) (c : csv) (fs : list (string * csv)) :
  path <> other ->
  lookup_file path ((other, c) :: fs) = lookup_file path fs.
Proof.
  intros Ne. unfold lookup_file. cbn [find fst].
  destruct (String.eqb_spec other path) as [E|_]; [congruence|reflexivity].
Qed.

Lemma append_cancel (a b c : string) :
  (a ++ b)%string = (a ++ c)%string -> b = c.
Proof.
  induction a as [|x a IH]; cbn; [auto|].
  intros H. injection H as H. now apply IH.
Qed.

Lemma detailed_path_not_summary_path (perfil : string) :
  detailed_path perfil <> summary_path perfil.
Proof.
  unfold detailed_path, summary_path. intros E.
  apply append_cancel, append_cancel in E. discriminate E.
Qed.

Lemma files_of_lookup (perfil : string) (df : list contract) (factors : ndarray)
      (fs : list (string * csv)) :
  lookup_file (detailed_path perfil) (files_of perfil df factors fs)
  = Some (DetailedCsv (out_of df factors))
  /\ lookup_file (summary_path perfil) (files_of perfil df factors fs)
     = Some (SummaryCsv (summary_of_run df factors))
  /\ forall path,
       path <> detailed_path perfil -> path <> summary_path perfil ->
       lookup_file path (files_of perfil df factors fs) = lookup_file path fs.
Proof.
  unfold files_of. pose proof (@detailed_path_not_summary_path perfil) as Ne.
  repeat split.
  - rewrite lookup_file_tail by exact Ne.
    rewrite lookup_file_filter by exact Ne. apply lookup_file_head.
  - apply lookup_file_head.
  - intros path N1 N2.
    rewrite lookup_file_tail by exact N2.
    rewrite lookup_file_filter by exact N2.
    rewrite lookup_file_tail by exact N1.
    now apply lookup_file_filter.
Qed.

Lemma out_of_rows (df : list contract) (factors : ndarray) :
  length (labels (final factors)) = length (data (prepared df)) ->
  map out_row (out_of df factors) = data (prepared df)
  /\ map out_cluster (out_of df factors) = labels (final factors)
  /\ forall o, In o (out_of df factors) ->
       map fst (out_factors o) = ["factor_1"; "factor_2"; "factor_3"]%string.
Proof.
  intros Hl. unfold out_of.
  set (d := data (prepared df)) in *. set (l := labels (final factors)) in *.
  assert (Hsd : length (combine (seq 0 (length d)) d) = length l).
  { rewrite length_combine, length_seq. lia. }
  repeat split.
  - rewrite map_map. cbn [out_row].
    rewrite <- (map_map fst snd), (combine_fst _ _ Hsd).
    apply combine_snd. now rewrite length_seq.
  - rewrite map_map. cbn [out_cluster]. now apply combine_snd.
  - intros o Ho. apply in_map_iff in Ho. destruct Ho as (irl & <- & _).
    reflexivity.
Qed.

(** X13: when [build_segment_outputs] raises (the factor fit failed,
    or the labels do not fit the frame) nothing has been written: the
    files, the store, the log and the identifier source are as
    before. *)
Theorem build_segment_outputs_raise_writes_nothing
  (perfil : string) (df : list contract) (engine : option Engine)
  (w w' : world) (msg : string) :
  build perfil df engine w = (Raise msg, w') -> w' = w.
Proof.
  intros H.
  destruct (build_segment_outputs_cases perfil df engine w)
    as [(_ & entry & _ & E) | [(_ & _ & msg0 & E) | (_ & _ & factors & _ & _ & E)]];
    unfold build in *; rewrite E in H.
  - discriminate H.
  - now injection H.
  - discriminate H.
Qed.

(** X14: a cohort is skipped only below a threshold: when
    [build_segment_outputs] returns [None], the cohort has fewer than
    25 records or fewer than 5 prepared rows. *)
Theorem build_segment_outputs_none_only_below_threshold
  (perfil : string) (df : list contract) (engine : option Engine) (w w' : world) :
  build perfil df engine w = (Ok None, w') ->
  (length df < 25)%nat \/ (length (data (prepare_segment parse_number df)) < 5)%nat.
Proof.
  intros H.
  destruct (build_segment_outputs_cases perfil df engine w)
    as [(Low & _) | [(_ & _ & msg0 & E) | (_ & _ & factors & _ & _ & E)]].
  - exact Low.
  - unfold build in *. rewrite E in H. discriminate H.
  - unfold build in *. rewrite E in H. discriminate H.
Qed.

Lemma nth_error_combine (A B : Type) (l : list A) (l' : list B)
      (i : nat) (x : A) (y : B) :
  nth_error (combine l l') i = Some (x, y) ->
  nth_error l i = Some x /\ nth_error l' i = Some y.
Proof.
  revert l' i. induction l as [|a r IH]; intros [|b r'] [|i] H;
    cbn in H; try discriminate H.
  - injection H as <- <-. now split.
  - cbn. now apply IH.
Qed.

Lemma out_of_nth (df : list contract) (factors : ndarray) (i : nat) (o : client_out) :
  nth_error (out_of df factors) i = Some o ->
  out_factors o = factor_scores factors 3 i.
Proof.
  unfold out_of. rewrite nth_error_map.
  destruct (nth_error
              (combine (combine (seq 0 (length (data (prepared df))))
                                (data (prepared df)))
                       (labels (final factors))) i)
    as [[[j r] c]|] eqn:E; [|discriminate].
  cbn [option_map]. intros H. injection H as <-. cbn [out_factors fst snd].
  apply nth_error_combine in E. destruct E as [E _].
  apply nth_error_combine in E. destruct E as [E _].
  rewrite nth_error_seq in E.
  destruct (i <? length (data (prepared df)))%nat; [|discriminate E].
  injection E as <-. reflexivity.
Qed.

(** X15: when [build_segment_outputs] returns a table for an ASCII
    profile tag, the factor fit on the feature columns succeeded with
    3 components, and the table has the prepared rows in order, each
    with the label the final fit gave it and its three factor scores
    under [factor_1 .. factor_3]; the detailed file of the profile
    holds that table, its summary file holds the summary of the
    prepared rows under those labels, and no other file of the output
    directory is touched. *)
Theorem build_segment_outputs_writes_two_files
  (perfil : string) (df : list contract) (engine : option Engine)
  (w w' : world) (out : list client_out) :
  is_ascii perfil = true ->
  build perfil df engine w = (Ok (Some out), w') ->
  exists factors,
    factor_fit_transform
      (select (prepare_segment parse_number df)
              (feature_cols_of (prepare_segment parse_number df))) 3%Z
    = Ok factors
    /\ map out_row out = data (prepare_segment parse_number df)
    /\ map out_cluster out
       = labels (cluster_factors KMeans_fit_predict KMeans_cluster_centers
                   silhouette_score factors
                   (fst (pick_cluster_count KMeans_fit_predict silhouette_score
                                            factors)))
    /\ (forall i o, nth_error out i = Some o ->
          out_factors o
          = [ ("factor_1"%string, nth i (column factors 0) 0%Q);
              ("factor_2"%string, nth i (column factors 1) 0%Q);
              ("factor_3"%string, nth i (column factors 2) 0%Q) ])
    /\ lookup_file (detailed_path perfil) (files w') = Some (DetailedCsv out)
    /\ (exists summary,
          summarize_clusters round_2 (data (prepare_segment parse_number df))
                             (map out_cluster out) = Ok summary
          /\ lookup_file (summary_path perfil) (files w') = Some (SummaryCsv summary))
    /\ forall path,
         path <> detailed_path perfil -> path <> summary_path perfil ->
         lookup_file path (files w') = lookup_file path (files w).
Proof.
  intros _ H.
  destruct (build_segment_outputs_cases perfil df engine w)
    as [(_ & entry & _ & E) | [(_ & _ & msg0 & E) | (_ & _ & factors & Efit & Hl & E)]];
    unfold build in *; rewrite E in H; try discriminate H.
  injection H as <- <-.
  destruct (@out_of_rows df factors Hl) as (Hrows & Hlab & _).
  destruct (files_of_lookup perfil df factors (files w)) as (Fd & Fs & Fo).
  assert (Hfiles : files (match engine with
                          | Some _ =>
                              mk_world (files_of perfil df factors (files w))
                                (run_of perfil df factors (next_uuid w) :: store w)
                                (log w ++ [InfoPersisted perfil
                                             (length (summary_of_run df factors))
                                             (next_uuid w)
                                             (silhouette (final factors))])
                                (S (next_uuid w))
                          | None =>
                              mk_world (files_of perfil df factors (files w))
                                (store w)
                                (log w ++ [InfoNotPersisted perfil
                                             (length (summary_of_run df factors))])
                                (next_uuid w)
                          end)
                   = files_of perfil df factors (files w))
    by now destruct engine.
  rewrite Hfiles. exists factors.
  split; [exact Efit|]. split; [exact Hrows|]. split; [exact Hlab|].
  split.
  { intros i o Ho. rewrite (out_of_nth df factors i Ho). reflexivity. }
  split; [exact Fd|]. split; [|exact Fo].
  exists (summary_of_run df factors). split; [|exact Fs].
  rewrite Hlab. apply summarize_clusters_ok. symmetry. exact Hl.
Qed.

(** X16: a run is persisted only with an engine.  Without one the
    store and the identifier source are left alone; with one the store
    gains exactly one run in front of the runs it held: it carries a
    fresh identifier, the profile, the algorithm tag, the feature
    columns, 3 components, a cluster count between 1 and 6, the
    returned table and one summary row per distinct label. *)
Theorem build_segment_outputs_persists_one_run
  (perfil : string) (df : list contract) (engine : option Engine)
  (w w' : world) (out : list client_out) :
  build perfil df engine w = (Ok (Some out), w') ->
  match engine with
  | None => store w' = store w /\ next_uuid w' = next_uuid w
  | Some _ =>
      exists run,
        store w' = run :: store w
        /\ next_uuid w' = S (next_uuid w)
        /\ run_id run = next_uuid w
        /\ perfil_of run = perfil
        /\ algoritmo run = "factor_analysis_kmeans_v1"%string
        /\ feature_columns run = feature_cols_of (prepare_segment parse_number df)
        /\ n_components run = 3%Z
        /\ (1 <= n_clusters run <= 6)%Z
        /\ run_clientes run = out
        /\ length (run_resumo run) = n_distinct (map out_cluster out)
  end.
Proof.
  intros H.
  destruct (build_segment_outputs_cases perfil df engine w)
    as [(_ & entry & _ & E) | [(_ & _ & msg0 & E) | (_ & _ & factors & _ & Hl & E)]];
    unfold build in *; rewrite E in H; try discriminate H.
  injection H as <- <-.
  destruct engine as [e|]; [|split; reflexivity].
  exists (run_of perfil df factors (next_uuid w)).
  cbn [store next_uuid run_of run_id perfil_of algoritmo feature_columns
       n_components n_clusters run_clientes run_resumo].
  repeat split; try reflexivity.
  - apply (pick_cluster_count_bounds KMeans_fit_predict silhouette_score factors).
  - apply (pick_cluster_count_bounds KMeans_fit_predict silhouette_score factors).
  - destruct (@out_of_rows df factors Hl) as (_ & Hlab & _). rewrite Hlab.
    unfold summary_of_run.
    rewrite <- (length_map cluster), summarize_labeled_clusters.
    rewrite combine_snd by (symmetry; exact Hl).
    rewrite sorted_length. apply n_distinct_unique.
Qed.

Lemma unique_repeat (x : Z) (n : nat) :
  unique Z.eqb (repeat x (S n)) = [x].
Proof.
  induction n as [|n IH]; [reflexivity|].
  change (repeat x (S (S n))) with (x :: repeat x (S n)).
  cbn [unique]. rewrite IH. cbn [filter]. now rewrite Z.eqb_refl.
Qed.

Lemma cluster_rows_repeat (d : list row) (c : Z) :
  cluster_rows (combine d (repeat c (length d))) c = d.
Proof.
  unfold cluster_rows. induction d as [|r d IH]; [reflexivity|].
  cbn [length repeat combine filter snd]. rewrite Z.eqb_refl.
  cbn [map fst]. now rewrite IH.
Qed.

(** X17: a run persisted with a cluster count of 1 is the degenerate
    outcome in full: every client row carries label 0, both
    silhouettes are 0, and the summary is the single row of cluster 0
    counting the distinct clients of the whole prepared frame. *)
Theorem build_segment_outputs_single_cluster
  (perfil : string) (df : list contract) (e : Engine)
  (w w' : world) (out : list client_out) (run : cluster_run) :
  build perfil df (Some e) w = (Ok (Some out), w') ->
  hd_error (store w') = Some run ->
  n_clusters run = 1%Z ->
  (forall o, In o out -> out_cluster o = 0%Z)
  /\ metric_silhouette run = 0%Q
  /\ metric_search_silhouette run = 0%Q
  /\ exists s,
       run_resumo run = [s]
       /\ cluster s = 0%Z
       /\ total_clientes s
          = Z.of_nat (nunique (map cliente_id
                                   (data (prepare_segment parse_number df)))).
Proof.
  intros H Hhd Hk.
  destruct (build_segment_outputs_cases perfil df (Some e) w)
    as [(_ & entry & _ & E) | [(_ & _ & msg0 & E) | (_ & Many & factors & _ & Hl & E)]];
    unfold build in *; rewrite E in H; try discriminate H.
  injection H as <- <-. cbn [store hd_error] in Hhd. injection Hhd as <-.
  cbn [run_of n_clusters metric_silhouette metric_search_silhouette run_resumo] in *.
  assert (Efinal : final factors
                   = mk_payload (repeat 0%Z (shape0 factors)) (mean_axis0 factors) 0%Q).
  { unfold final, cluster_factors. now rewrite Hk. }
  assert (Epick : pick factors = (1%Z, 0%Q)).
  { destruct (pick_cluster_count_inv KMeans_fit_predict silhouette_score factors)
      as [[Ep _] | (R & _)]; [exact Ep|].
    fold (pick factors) in R. lia. }
  rewrite Efinal in Hl. cbn [labels] in Hl. rewrite repeat_length in Hl.
  assert (Elab : labels (final factors) = repeat 0%Z (length (data (prepared df)))).
  { rewrite Efinal. cbn [labels]. now rewrite Hl. }
  split.
  { intros o Ho.
    assert (Hin : In (out_cluster o) (map out_cluster (out_of df factors)))
      by now apply in_map.
    destruct (@out_of_rows df factors) as (_ & Hlab & _).
    { rewrite Elab. apply repeat_length. }
    rewrite Hlab, Elab in Hin. now apply repeat_spec in Hin. }
  split; [now rewrite Efinal|]. split; [now rewrite Epick|].
  unfold summary_of_run, summarize_labeled. rewrite Elab.
  rewrite combine_snd by (now rewrite repeat_length).
  destruct (length (data (prepared df))) as [|n] eqn:En; [lia|].
  rewrite unique_repeat. cbn [sorted insert_sorted map].
  eexists. split; [reflexivity|]. cbn [summary_of cluster total_clientes].
  split; [reflexivity|].
  rewrite <- En, cluster_rows_repeat. reflexivity.
Qed.

End DriverRuns.

(** ** More on the summarizer *)

Lemma list_sum_cons (a : nat) (l : list nat) :
  list_sum (a :: l) = (a + list_sum l)%nat.
Proof. reflexivity. Qed.

Lemma list_sum_map_add (A : Type) (g h : A -> nat) (l : list A) :
  list_sum (map (fun x => g x + h x)%nat l)
  = (list_sum (map g l) + list_sum (map h l))%nat.
Proof.
  induction l as [|x r IH]; [reflexivity|]. cbn [map]; rewrite ?list_sum_cons. lia.
Qed.

Lemma list_sum_indicator (x : Z) (cs : list Z) :
  NoDup cs -> In x cs ->
  list_sum (map (fun c => if Z.eqb x c then 1 else 0)%nat cs) = 1%nat.
Proof.
  induction 1 as [|c r Hnin Hnd IH]; intros Hin; [contradiction|].
  cbn [map]; rewrite ?list_sum_cons. destruct (Z.eqb_spec x c) as [->|Ne].
  - assert (Z0 : list_sum (map (fun c0 => if Z.eqb c c0 then 1 else 0)%nat r) = 0%nat).
    { clear IH Hnd Hin. induction r as [|y r IHr]; [reflexivity|].
      cbn [map]; rewrite ?list_sum_cons. destruct (Z.eqb_spec c y) as [->|_].
      - exfalso. apply Hnin. now left.
      - apply IHr. intros H. apply Hnin. now right. }
    lia.
  - destruct Hin as [E|Hin]; [congruence|]. rewrite (IH Hin). lia.
Qed.

Lemma cluster_sizes_sum (labeled : list (row * Z)) (cs : list Z) :
  NoDup cs -> (forall p, In p labeled -> In (snd p) cs) ->
  list_sum (map (fun c => length (cluster_rows labeled c)) cs) = length labeled.
Proof.
  intros Nd. induction labeled as [|p r IH]; intros Hall.
  - clear. induction cs as [|c cs IHcs]; [reflexivity|].
    cbn [map]. rewrite list_sum_cons. exact IHcs.
  - rewrite (map_ext
               (fun c => length (cluster_rows (p :: r) c))
               (fun c => ((if Z.eqb (snd p) c then 1 else 0)
                          + length (cluster_rows r c))%nat)).
    + rewrite list_sum_map_add, IH, list_sum_indicator.
      * reflexivity.
      * exact Nd.
      * apply Hall. now left.
      * intros q Hq. apply Hall. now right.
    + intros c. unfold cluster_rows. cbn [filter].
      destruct (Z.eqb (snd p) c); reflexivity.
Qed.

Lemma unique_length_le (A : Type) (eqb : A -> A -> bool) (l : list A) :
  (length (unique eqb l) <= length l)%nat.
Proof.
  induction l as [|x r IH]; [reflexivity|]. cbn [unique length].
  pose proof (filter_length_le (fun y => negb (eqb x y)) (unique eqb r)). lia.
Qed.

Lemma present_length_le (A : Type) (l : list (option A)) :
  (length (present l) <= length l)%nat.
Proof.
  induction l as [|[a|] r IH]; cbn [present length]; lia.
Qed.

(** X18: the clusters of a summary split the table: every summary row
    stands for at least one record, its client count is at most the
    number of records of its cluster, and the numbers of records of
    the clusters add up to the number of rows of the table. *)
Theorem summarize_clusters_partition
  (round_2 : Q -> Q) (df : list row) (labels : list Z) :
  length df = length labels ->
  exists summary,
    summarize_clusters round_2 df labels = Ok summary
    /\ (forall s, In s summary ->
          (1 <= length (cluster_rows (combine df labels) (cluster s)))%nat
          /\ (0 <= total_clientes s
              <= Z.of_nat (length (cluster_rows (combine df labels) (cluster s))))%Z)
    /\ list_sum (map (fun s => length (cluster_rows (combine df labels) (cluster s)))
                     summary)
       = length df.
Proof.
  intros Hlen. rewrite (summarize_clusters_ok round_2 _ _ Hlen).
  eexists. split; [reflexivity|].
  set (labeled := combine df labels).
  assert (Hs : map snd labeled = labels) by now apply combine_snd.
  split.
  - intros s Hin. unfold summarize_labeled in Hin.
    apply in_map_iff in Hin. destruct Hin as (c & <- & Hc).
    rewrite sorted_In, (unique_In _ Z_eqb_eq) in Hc.
    cbn [summary_of cluster total_clientes]. split.
    + apply in_map_iff in Hc. destruct Hc as ([r c'] & Ec & Hp).
      cbn in Ec. subst c'.
      assert (Hr : In r (cluster_rows labeled c)) by now apply cluster_rows_In.
      destruct (cluster_rows labeled c); [contradiction|cbn; lia].
    + split; [lia|]. apply inj_le. unfold nunique.
      etransitivity; [apply unique_length_le|].
      etransitivity; [apply present_length_le|]. now rewrite length_map.
  - unfold summarize_labeled. rewrite map_map. cbn [summary_of cluster].
    rewrite cluster_sizes_sum.
    + unfold labeled. rewrite length_combine. lia.
    + apply sorted_NoDup, unique_NoDup, Z_eqb_eq.
    + intros p Hp. rewrite sorted_In, (unique_In _ Z_eqb_eq). now apply in_map.
Qed.

Lemma summarize_clusters_partition_witness :
  exists summary,
    summarize_clusters round2 shared_client_df [1%Z; 0%Z] = Ok summary
    /\ (forall s, In s summary ->
          (1 <= length (cluster_rows (combine shared_client_df [1%Z; 0%Z])
                                     (cluster s)))%nat
          /\ (0 <= total_clientes s
              <= Z.of_nat (length (cluster_rows
                                     (combine shared_client_df [1%Z; 0%Z])
                                     (cluster s))))%Z)
    /\ list_sum (map (fun s => length (cluster_rows
                                         (combine shared_client_df [1%Z; 0%Z])
                                         (cluster s)))
                     summary)
       = length shared_client_df.
Proof.
  apply (@summarize_clusters_partition round2 shared_client_df [1%Z; 0%Z]). reflexivity.
Defined.


(** ** Views across cohorts *)

Section SortedByFacts.

Variable A : Type.
Variable leb : A -> A -> bool.
Hypothesis leb_total : forall a b, leb a b = true \/ leb b a = true.
Hypothesis leb_trans : forall a b c, leb a b = true -> leb b c = true -> leb a c = true.

Lemma insert_sorted_ordered (x : A) (l : list A) :
  StronglySorted (fun a b => leb a b = true) l ->
  StronglySorted (fun a b => leb a b = true) (insert_sorted leb x l).
Proof.
  induction 1 as [|y r Hs IH Hall]; cbn [insert_sorted].
  - repeat constructor.
  - destruct (leb x y) eqn:E.
    + constructor; [now constructor|].
      constructor; [exact E|].
      eapply Forall_impl; [|exact Hall]. intros z Hz. eapply leb_trans; eassumption.
    + constructor; [exact IH|].
      rewrite Forall_forall in *. intros z Hz.
      apply (Permutation_in _ (insert_sorted_perm leb x r)) in Hz.
      destruct Hz as [<-|Hz]; [|now apply Hall].
      destruct (leb_total x y) as [H|H]; [congruence|exact H].
Qed.

Lemma sorted_ordered (l : list A) :
  StronglySorted (fun a b => leb a b = true) (sorted leb l).
Proof.
  induction l as [|x r IH]; cbn [sorted]; [constructor|].
  now apply insert_sorted_ordered.
Qed.

End SortedByFacts.

Lemma StronglySorted_weaken (A : Type) (R R' : A -> A -> Prop) (l : list A) :
  (forall a b, R a b -> R' a b) -> StronglySorted R l -> StronglySorted R' l.
Proof.
  intros Imp. induction 1 as [|a r _ IH Hall]; constructor; [exact IH|].
  eapply Forall_impl; [|exact Hall]. intros b. apply Imp.
Qed.

Lemma key_eqb_eq (a b : string * Z) : key_eqb a b = true <-> a = b.
Proof.
  destruct a as [s z], b as [s' z']. unfold key_eqb. cbn [fst snd].
  rewrite andb_true_iff, String.eqb_eq, Z.eqb_eq. split.
  - now intros [-> ->].
  - intros E. now injection E.
Qed.

Lemma grouped_counts_keys (d : dimension) (consolidated : list client_out) :
  map view_key (grouped_counts d consolidated)
  = sorted key_leb (unique key_eqb (present (map (group_key d) consolidated))).
Proof.
  unfold grouped_counts. rewrite map_map. unfold view_key.
  cbn [view_value view_cluster].
  rewrite (map_ext _ (fun k => k)); [apply map_id|].
  now intros [v c].
Qed.

(** X19: a view written by [aggregate_views] lists the counts from
    the largest to the smallest, has exactly one row for every pair
    of a dimension value and a cluster label met in the consolidated
    table, and none for records whose dimension value is missing;
    the count of a row is the number of distinct clients of its
    group. *)
Theorem aggregate_view_rows (d : dimension) (consolidated : list client_out) :
  let view := aggregate_view d consolidated in
  StronglySorted (fun a b => (view_total b <= view_total a)%Z) view
  /\ NoDup (map view_key view)
  /\ (forall value c,
        In (value, c) (map view_key view)
        <-> exists o, In o consolidated
                      /\ dimension_value d o = Some value
                      /\ out_cluster o = c)
  /\ forall r, In r view ->
       view_total r
       = Z.of_nat (nunique (map (fun o => cliente_id (out_row o))
                                (filter (in_group d (view_key r)) consolidated))).
Proof.
  intros view. unfold view, aggregate_view.
  pose proof (sorted_perm total_desc (grouped_counts d consolidated)) as P.
  split.
  { assert (S : StronglySorted (fun a b => total_desc a b = true)
                  (sorted total_desc (grouped_counts d consolidated))).
    { apply sorted_ordered.
      - intros a b. unfold total_desc. rewrite !Z.leb_le. lia.
      - intros a b c. unfold total_desc. rewrite !Z.leb_le. lia. }
    apply (StronglySorted_weaken (R := fun a b => total_desc a b = true));
      [|exact S].
    intros a b Hb. unfold total_desc in Hb. now apply Z.leb_le. }
  split.
  { apply (Permutation_NoDup (l := map view_key (grouped_counts d consolidated))).
    - apply Permutation_map. now symmetry.
    - rewrite grouped_counts_keys.
      apply sorted_NoDup, unique_NoDup, key_eqb_eq. }
  split.
  { intros value c.
    assert (Hk : In (value, c)
                    (map view_key (sorted total_desc (grouped_counts d consolidated)))
                 <-> In (value, c) (map view_key (grouped_counts d consolidated))).
    { split; apply Permutation_in, Permutation_map; [exact P|now symmetry]. }
    rewrite Hk, grouped_counts_keys, sorted_In, (unique_In _ key_eqb_eq), present_In.
    rewrite in_map_iff. unfold group_key. split.
    - intros (o & E & Ho). exists o. split; [exact Ho|].
      destruct (dimension_value d o) as [v|]; [|discriminate E].
      cbn [option_map] in E. injection E as <- <-. now split.
    - intros (o & Ho & Ev & Ec). exists o. split; [|exact Ho].
      rewrite Ev. cbn [option_map]. now rewrite Ec. }
  intros r Hr. apply (Permutation_in _ P) in Hr.
  unfold grouped_counts in Hr. apply in_map_iff in Hr.
  destruct Hr as ([v c] & <- & _). reflexivity.
Qed.


(** ** The entry point *)

(** X20: [groupby("cliente_perfil")] splits the table by profile tag:
    no tag gives two cohorts, a cohort is never empty and holds, in
    the order of the table, exactly the records that carry its tag,
    and every record with a tag is in the cohort of that tag. *)
Theorem groupby_perfil_partition (df : list contract) :
  NoDup (map fst (groupby_perfil df))
  /\ (forall perfil grupo,
        In (perfil, grupo) (groupby_perfil df) ->
        grupo <> []
        /\ grupo = with_perfil perfil df
        /\ forall c, In c grupo -> raw_cliente_perfil c = Some perfil)
  /\ (forall c perfil,
        In c df -> raw_cliente_perfil c = Some perfil ->
        exists grupo, In (perfil, grupo) (groupby_perfil df) /\ In c grupo).
Proof.
  unfold groupby_perfil. fold with_perfil.
  set (keys := sorted String.leb
                 (unique String.eqb (present (map raw_cliente_perfil df)))).
  assert (Hkeys : forall p, In p keys <-> exists c, In c df /\ raw_cliente_perfil c = Some p).
  { intros p. unfold keys.
    rewrite sorted_In, (unique_In _ String.eqb_eq), present_In, in_map_iff.
    split; intros (c & H1 & H2); exists c; auto. }
  assert (Hmem : forall p c, In c (with_perfil p df)
                             <-> In c df /\ raw_cliente_perfil c = Some p).
  { intros p c. unfold with_perfil. rewrite filter_In.
    destruct (raw_cliente_perfil c) as [q|].
    - rewrite String.eqb_eq. split; intros [H1 H2]; split; congruence.
    - split; intros [_ H]; discriminate H. }
  split.
  { rewrite map_map. cbn [fst]. rewrite map_id.
    apply sorted_NoDup, unique_NoDup, String.eqb_eq. }
  split.
  - intros perfil grupo Hin. apply in_map_iff in Hin.
    destruct Hin as (p & E & Hp). injection E as <- <-.
    apply Hkeys in Hp. destruct Hp as (c & Hc & Ec).
    split; [|split; [reflexivity|]].
    + intros Hnil. assert (Hi : In c (with_perfil p df)) by now apply Hmem.
      unfold with_perfil in Hi. rewrite Hnil in Hi. contradiction.
    + intros c0 Hc0. now apply Hmem in Hc0.
  - intros c perfil Hc Ec. exists (with_perfil perfil df). split.
    + apply in_map_iff. exists perfil. split; [reflexivity|].
      apply Hkeys. now exists c.
    + now apply Hmem.
Qed.

Lemma lookup_rollup_head (name : string) (v : list view_row)
      (fs : list (string * list view_row)) :
  lookup_rollup name ((name, v) :: fs) = Some v.
Proof. unfold lookup_rollup. cbn [find fst]. now rewrite String.eqb_refl. Qed.

Lemma lookup_rollup_tail (name other : string) (v : list view_row)
      (fs : list (string * list view_row)) :
  name <> other ->
  lookup_rollup name ((other, v) :: fs) = lookup_rollup name fs.
Proof.
  intros Ne. unfold lookup_rollup. cbn [find fst].
  destruct (String.eqb_spec other name) as [E|_]; [congruence|reflexivity].
Qed.

Lemma lookup_rollup_filter (name other : string)
      (fs : list (string * list view_row)) :
  name <> other ->
  lookup_rollup name (filter (fun f => negb (String.eqb (fst f) other)) fs)
  = lookup_rollup name fs.
Proof.
  intros Ne. unfold lookup_rollup. f_equal.
  induction fs as [|[p c] r IH]; [reflexivity|].
  cbn [filter find fst].
  destruct (String.eqb_spec p other) as [->|Np]; cbn [negb].
  - destruct (String.eqb_spec other name) as [E|_]; [congruence|exact IH].
  - cbn [find fst]. now rewrite IH.
Qed.

Section EntryPointFacts.

Variable round_2 : Q -> Q.
Variable parse_number : string -> float.
Variable KMeans_fit_predict : Z -> nat -> ndarray -> list Z.
Variable KMeans_cluster_centers : Z -> nat -> ndarray -> list (list float).
Variable silhouette_score : ndarray -> list Z -> Q.
Variable factor_fit_transform : list (list float) -> Z -> res ndarray.

Let build :=
  build_segment_outputs round_2 parse_number KMeans_fit_predict KMeans_cluster_centers
                        silhouette_score factor_fit_transform.
Let cohorts :=
  run_cohorts round_2 parse_number KMeans_fit_predict KMeans_cluster_centers
              silhouette_score factor_fit_transform.
Let run_main :=
  main round_2 parse_number KMeans_fit_predict KMeans_cluster_centers
       silhouette_score factor_fit_transform.

Lemma run_cohorts_cons (perfil : string) (grupo : list contract)
      (rest : list (string * list contract)) (acc : list (list client_out)) (w : world) :
  cohorts ((perfil, grupo) :: rest) acc w
  = match build perfil grupo (Some engine_handle) w with
    | (Ok result, w1) =>
        cohorts rest (match result with
                      | Some r => acc ++ [r]
                      | None => acc
                      end) w1
    | (Raise msg, w1) => (Raise msg, w1)
    end.
Proof. reflexivity. Qed.

(** One cohort of the loop: what it does to the store and what it
    returns. *)
Lemma build_step (perfil : string) (grupo : list contract) (w : world) :
  exists r w1,
    build perfil grupo (Some engine_handle) w = (r, w1)
    /\ match r with
       | Ok (Some out) => out <> [] /\ exists run, store w1 = run :: store w
       | _ => store w1 = store w
       end.
Proof.
  destruct (build_segment_outputs_cases round_2 parse_number KMeans_fit_predict
              KMeans_cluster_centers silhouette_score factor_fit_transform
              perfil grupo (Some engine_handle) w)
    as [(_ & entry & _ & E) | [(_ & _ & msg0 & E) | (_ & Many & factors & _ & Hl & E)]];
    unfold build; rewrite E; do 2 eexists; (split; [reflexivity|]).
  - reflexivity.
  - reflexivity.
  - split; [|eexists; reflexivity].
    destruct (@out_of_rows parse_number KMeans_fit_predict KMeans_cluster_centers
                silhouette_score grupo factors Hl) as (Hrows & _).
    intros Hnil. rewrite Hnil in Hrows. cbn [map] in Hrows.
    rewrite <- Hrows in Many. cbn in Many. lia.
Qed.

Lemma run_cohorts_store (groups : list (string * list contract))
      (acc : list (list client_out)) (w : world) :
  exists new,
    store (snd (cohorts groups acc w)) = new ++ store w
    /\ (length new <= length groups)%nat.
Proof.
  revert acc w. induction groups as [|[perfil grupo] rest IH]; intros acc w.
  - exists []. split; [reflexivity|cbn; lia].
  - rewrite run_cohorts_cons.
    destruct (build_step perfil grupo w) as (r & w1 & E & Hr). rewrite E.
    destruct r as [[out|]|msg].
    + destruct Hr as (_ & run & Es).
      destruct (IH (acc ++ [out]) w1) as (new & Hs & Hl).
      exists (new ++ [run]). rewrite Hs, Es, <- app_assoc.
      split; [reflexivity|]. rewrite length_app. cbn. lia.
    + destruct (IH acc w1) as (new & Hs & Hl).
      exists new. rewrite Hs, Hr. split; [reflexivity|cbn; lia].
    + exists []. cbn [snd app]. split; [exact Hr|cbn; lia].
Qed.

Lemma run_cohorts_rows (groups : list (string * list contract))
      (acc : list (list client_out)) (w : world) (rows : list (list client_out)) :
  fst (cohorts groups acc w) = Ok rows ->
  exists produced,
    rows = acc ++ produced /\ forall t, In t produced -> t <> [].
Proof.
  revert acc w. induction groups as [|[perfil grupo] rest IH]; intros acc w.
  - cbn. intros H. injection H as <-. exists []. split; [now rewrite app_nil_r|].
    intros t [].
  - rewrite run_cohorts_cons.
    destruct (build_step perfil grupo w) as (r & w1 & E & Hr). rewrite E.
    destruct r as [[out|]|msg].
    + intros H. destruct (IH _ _ H) as (produced & -> & Hp).
      exists (out :: produced). rewrite <- app_assoc. split; [reflexivity|].
      intros t [<-|Ht]; [apply Hr|now apply Hp].
    + apply IH.
    + cbn. discriminate.
Qed.

Lemma run_cohorts_skipped (groups : list (string * list contract))
      (acc : list (list client_out)) (w : world) :
  (forall perfil grupo, In (perfil, grupo) groups ->
     (length grupo < 25)%nat
     \/ (length (data (prepare_segment parse_number grupo)) < 5)%nat) ->
  exists entries,
    length entries = length groups
    /\ Forall (fun l => is_warning l = true) entries
    /\ cohorts groups acc w
       = (Ok acc, mk_world (files w) (store w) (log w ++ entries) (next_uuid w)).
Proof.
  revert w. induction groups as [|[perfil grupo] rest IH]; intros w Hsmall.
  - exists []. split; [reflexivity|]. split; [constructor|].
    cbn. rewrite app_nil_r. now destruct w.
  - rewrite run_cohorts_cons.
    destruct (build_segment_outputs_cases round_2 parse_number KMeans_fit_predict
                KMeans_cluster_centers silhouette_score factor_fit_transform
                perfil grupo (Some engine_handle) w)
      as [(_ & entry & Hw & E) | [(H25 & H5 & _) | (H25 & H5 & _)]].
    + unfold build. rewrite E.
      destruct (IH (mk_world (files w) (store w) (log w ++ [entry]) (next_uuid w)))
        as (entries & Hlen & Hall & Ec).
      { intros p g Hg. apply (Hsmall p g). now right. }
      exists (entry :: entries). split; [cbn; now rewrite Hlen|].
      split; [now constructor|].
      rewrite Ec. cbn [files store log next_uuid]. now rewrite <- app_assoc.
    + destruct (Hsmall perfil grupo (or_introl eq_refl)); lia.
    + destruct (Hsmall perfil grupo (or_introl eq_refl)); lia.
Qed.

(** X21: when every cohort of a table that is not empty is below a
    threshold, [main] ends normally having written no file, persisted
    no run and built no view; the log holds one warning per cohort
    and [main]'s own warning that no profile gave clusters. *)
Theorem main_all_cohorts_skipped (df : list contract) (s : main_state) :
  df <> [] ->
  (forall perfil grupo, In (perfil, grupo) (groupby_perfil df) ->
     (length grupo < 25)%nat
     \/ (length (data (prepare_segment parse_number grupo)) < 5)%nat) ->
  exists entries,
    length entries = length (groupby_perfil df)
    /\ Forall (fun l => is_warning l = true) entries
    /\ run_main df s
       = (Ok tt,
          mk_main_state
            (mk_world (files (outputs s)) (store (outputs s))
                      (log (outputs s) ++ entries) (next_uuid (outputs s)))
            (rollups s)
            (main_log s ++ [WarnNoClusters])).
Proof.
  intros Hne Hsmall.
  destruct (run_cohorts_skipped (groupby_perfil df) [] (outputs s) Hsmall)
    as (entries & Hlen & Hall & Ec).
  exists entries. split; [exact Hlen|]. split; [exact Hall|].
  unfold run_main, main. fold cohorts.
  destruct df as [|c df']; [congruence|]. cbn [length Nat.eqb].
  now rewrite Ec.
Qed.

Lemma run_cohorts_app (before : list (string * list contract))
      (w w1 : world) (tables : list (list client_out)) :
  cohorts_return build before w tables w1 ->
  forall rest acc,
    cohorts (before ++ rest) acc w = cohorts rest (acc ++ tables) w1.
Proof.
  induction 1 as [w | perfil grupo rest0 w w1 w2 tables Hb _ IH
                    | perfil grupo rest0 w w1 w2 out tables Hb _ IH];
    intros rest acc.
  - now rewrite app_nil_r.
  - cbn [app]. rewrite run_cohorts_cons, Hb. apply IH.
  - cbn [app]. rewrite run_cohorts_cons, Hb, IH, <- app_assoc. reflexivity.
Qed.



(** X23: [main] only adds to the store: whatever its outcome, the
    runs held before are still there, unchanged and in the same
    order, behind at most one new run per cohort. *)
Theorem main_only_adds_runs (df : list contract) (s : main_state) :
  exists new,
    store (outputs (snd (run_main df s))) = new ++ store (outputs s)
    /\ (length new <= length (groupby_perfil df))%nat.
Proof.
  unfold run_main, main. fold cohorts.
  destruct (length df =? 0)%nat.
  { exists []. split; [reflexivity|cbn; lia]. }
  destruct (run_cohorts_store (groupby_perfil df) [] (outputs s))
    as (new & Hs & Hl).
  destruct (cohorts (groupby_perfil df) [] (outputs s)) as [[rows|msg0] w1];
    cbn [snd] in Hs.
  - exists new. destruct rows; cbn [snd outputs aggregate_views]; now split.
  - exists new. now split.
Qed.

Lemma aggregate_view_is_view (d : dimension) (consolidated : list client_out) :
  is_view d consolidated (aggregate_view d consolidated).
Proof.
  unfold is_view, aggregate_view. split.
  - apply (StronglySorted_weaken (R := fun a b => total_desc a b = true)).
    + intros a b Hb. unfold total_desc in Hb. now apply Z.leb_le.
    + apply sorted_ordered.
      * intros a b. unfold total_desc. rewrite !Z.leb_le. lia.
      * intros a b c. unfold total_desc. rewrite !Z.leb_le. lia.
  - apply sorted_perm.
Qed.

(** X24: when every cohort of a table ends normally and at least one
    returns a table, [main] ends normally in the world the cohorts
    left and logs its success record; each of the three view files
    then holds the view by branch, portfolio and product line of the
    concatenation of the tables the cohorts returned (the grouped
    distinct-client counts, largest first), and no other view file is
    touched. *)
Theorem main_writes_three_views
  (df : list contract) (s : main_state)
  (tables : list (list client_out)) (w1 : world) :
  df <> [] ->
  cohorts_return build (groupby_perfil df) (outputs s) tables w1 ->
  tables <> [] ->
  exists s',
    run_main df s = (Ok tt, s')
    /\ outputs s' = w1
    /\ main_log s' = main_log s ++ [InfoDone]
    /\ (exists view,
          lookup_rollup "clusters_por_agencia.csv" (rollups s') = Some view
          /\ is_view by_agencia_nome (concat tables) view)
    /\ (exists view,
          lookup_rollup "clusters_por_carteira.csv" (rollups s') = Some view
          /\ is_view by_carteira_nome (concat tables) view)
    /\ (exists view,
          lookup_rollup "clusters_por_linha.csv" (rollups s') = Some view
          /\ is_view by_linha (concat tables) view)
    /\ forall name,
         name <> "clusters_por_agencia.csv"%string ->
         name <> "clusters_por_carteira.csv"%string ->
         name <> "clusters_por_linha.csv"%string ->
         lookup_rollup name (rollups s') = lookup_rollup name (rollups s).
Proof.
  intros Hne Hall Htables.
  pose proof (run_cohorts_app Hall [] []) as Hrun.
  rewrite app_nil_r in Hrun. cbn [app] in Hrun.
  change (cohorts [] tables w1) with (Ok tables, w1) in Hrun.
  unfold run_main, main. fold cohorts.
  destruct df as [|c df']; [congruence|]. cbn [length Nat.eqb].
  rewrite Hrun.
  destruct tables as [|t tables]; [congruence|].
  eexists. split; [reflexivity|].
  cbn [main_log rollups outputs aggregate_views].
  split; [reflexivity|]. split; [reflexivity|].
  split.
  { eexists. split; [|apply aggregate_view_is_view].
    rewrite lookup_rollup_tail by discriminate.
    rewrite lookup_rollup_filter by discriminate.
    rewrite lookup_rollup_tail by discriminate.
    rewrite lookup_rollup_filter by discriminate.
    apply lookup_rollup_head. }
  split.
  { eexists. split; [|apply aggregate_view_is_view].
    rewrite lookup_rollup_tail by discriminate.
    rewrite lookup_rollup_filter by discriminate.
    apply lookup_rollup_head. }
  split.
  { eexists. split; [|apply aggregate_view_is_view]. apply lookup_rollup_head. }
  intros name N1 N2 N3.
  rewrite lookup_rollup_tail by exact N3.
  rewrite lookup_rollup_filter by exact N3.
  rewrite lookup_rollup_tail by exact N2.
  rewrite lookup_rollup_filter by exact N2.
  rewrite lookup_rollup_tail by exact N1.
  now rewrite lookup_rollup_filter by exact N1.
Qed.

End EntryPointFacts.


(** ** The properties above on sample data *)

Lemma prepare_segment_imputation_in_range_witness :
  (forall v, valor_contrato sample_prepared_row = Some v -> (0 <= v <= 1000)%Q)
  /\ (forall v, saldo_atual sample_prepared_row = Some v -> (0 <= v <= 10)%Q).
Proof.
  apply (@prepare_segment_imputation_in_range no_text_number sample_cohort
           0%Q 1000%Q 0%Q 10%Q).
  - intros c v Hc E. vm_compute in Hc.
    destruct Hc as [<-|[<-|[]]]; vm_compute in E; try discriminate E.
    injection E as <-. split; discriminate.
  - intros c v Hc E. vm_compute in Hc.
    destruct Hc as [<-|[<-|[]]]; vm_compute in E; injection E as <-;
      split; discriminate.
  - vm_compute. left. reflexivity.
Defined.

Lemma prepared_rows_one_hot_witness :
  NoDup (onehot_columns (prepare_segment no_text_number sample_cohort))
  /\ length (dummies sample_prepared_row)
     = length (onehot_columns (prepare_segment no_text_number sample_cohort))
  /\ exists i,
       nth_error (onehot_columns (prepare_segment no_text_number sample_cohort)) i
       = Some (dummy_name (mod_bacen sample_prepared_row))
       /\ forall j,
            (j < length (onehot_columns
                           (prepare_segment no_text_number sample_cohort)))%nat ->
            nth_error (dummies sample_prepared_row) j
            = Some (if (j =? i)%nat then 1%Q else 0%Q).
Proof.
  apply (@prepared_rows_one_hot no_text_number sample_cohort sample_prepared_row).
  vm_compute. left. reflexivity.
Defined.

Lemma run_factor_analysis_three_components_witness :
  (6 <= length (feature_cols_of (prepare_segment no_text_number full_cohort)))%nat
  /\ run_factor_analysis toy_factor_fit
       (select (prepare_segment no_text_number full_cohort)
               (feature_cols_of (prepare_segment no_text_number full_cohort)))
       (length (feature_cols_of (prepare_segment no_text_number full_cohort)))
     = match toy_factor_fit
               (select (prepare_segment no_text_number full_cohort)
                       (feature_cols_of (prepare_segment no_text_number full_cohort)))
               3%Z with
       | Ok factors => Ok (factors, 3%Z)
       | Raise msg => Raise msg
       end.
Proof.
  apply (@run_factor_analysis_three_components no_text_number toy_factor_fit
           full_cohort).
  vm_compute. lia.
Defined.

Lemma build_segment_outputs_raise_writes_nothing_witness :
  empty_world = empty_world.
Proof.
  apply (@build_segment_outputs_raise_writes_nothing round2 no_text_number toy_fit_predict
           toy_centers toy_silhouette failing_factor_fit "PF"%string full_cohort
           None empty_world empty_world "ValueError: Input X contains NaN"%string).
  vm_compute. reflexivity.
Defined.

Lemma build_segment_outputs_none_only_below_threshold_witness :
  (length sample_cohort < 25)%nat
  \/ (length (data (prepare_segment no_text_number sample_cohort)) < 5)%nat.
Proof.
  apply (@build_segment_outputs_none_only_below_threshold round2 no_text_number
           toy_fit_predict toy_centers toy_silhouette toy_factor_fit
           "PF"%string sample_cohort None empty_world
           (mk_world [] [] [WarnTooFewRecords "PF" 3] 0)).
  vm_compute. reflexivity.
Defined.

Lemma build_segment_outputs_writes_two_files_witness :
  exists factors,
    toy_factor_fit
      (select (prepare_segment no_text_number full_cohort)
              (feature_cols_of (prepare_segment no_text_number full_cohort))) 3%Z
    = Ok factors
    /\ map out_row full_out = data (prepare_segment no_text_number full_cohort)
    /\ map out_cluster full_out
       = labels (cluster_factors toy_fit_predict toy_centers toy_silhouette factors
                   (fst (pick_cluster_count toy_fit_predict toy_silhouette factors)))
    /\ (forall i o, nth_error full_out i = Some o ->
          out_factors o
          = [ ("factor_1"%string, nth i (column factors 0) 0%Q);
              ("factor_2"%string, nth i (column factors 1) 0%Q);
              ("factor_3"%string, nth i (column factors 2) 0%Q) ])
    /\ lookup_file (detailed_path "PF") (files (snd full_run))
       = Some (DetailedCsv full_out)
    /\ (exists summary,
          summarize_clusters round2 (data (prepare_segment no_text_number full_cohort))
                             (map out_cluster full_out) = Ok summary
          /\ lookup_file (summary_path "PF") (files (snd full_run))
             = Some (SummaryCsv summary))
    /\ forall path,
         path <> detailed_path "PF" -> path <> summary_path "PF" ->
         lookup_file path (files (snd full_run)) = lookup_file path (files empty_world).
Proof.
  apply (@build_segment_outputs_writes_two_files round2 no_text_number toy_fit_predict
           toy_centers toy_silhouette toy_factor_fit "PF"%string full_cohort
           (Some engine_handle) empty_world (snd full_run) full_out).
  - reflexivity.
  - vm_compute. reflexivity.
Defined.

Lemma build_segment_outputs_persists_one_run_witness :
  exists run,
    store (snd full_run) = run :: store empty_world
    /\ next_uuid (snd full_run) = S (next_uuid empty_world)
    /\ run_id run = next_uuid empty_world
    /\ perfil_of run = "PF"%string
    /\ algoritmo run = "factor_analysis_kmeans_v1"%string
    /\ feature_columns run
       = feature_cols_of (prepare_segment no_text_number full_cohort)
    /\ n_components run = 3%Z
    /\ (1 <= n_clusters run <= 6)%Z
    /\ run_clientes run = full_out
    /\ length (run_resumo run) = n_distinct (map out_cluster full_out).
Proof.
  apply (@build_segment_outputs_persists_one_run round2 no_text_number toy_fit_predict
           toy_centers toy_silhouette toy_factor_fit "PF"%string full_cohort
           (Some engine_handle) empty_world (snd full_run) full_out).
  vm_compute. reflexivity.
Defined.

Lemma build_segment_outputs_single_cluster_witness :
  (forall o, In o flat_out -> out_cluster o = 0%Z)
  /\ metric_silhouette flat_stored_run = 0%Q
  /\ metric_search_silhouette flat_stored_run = 0%Q
  /\ exists s,
       run_resumo flat_stored_run = [s]
       /\ cluster s = 0%Z
       /\ total_clientes s
          = Z.of_nat (nunique (map cliente_id
                                   (data (prepare_segment no_text_number full_cohort)))).
Proof.
  apply (@build_segment_outputs_single_cluster round2 no_text_number flat_fit_predict
           toy_centers toy_silhouette toy_factor_fit "PF"%string full_cohort
           engine_handle empty_world (snd flat_run) flat_out flat_stored_run).
  - vm_compute. reflexivity.
  - vm_compute. reflexivity.
  - vm_compute. reflexivity.
Defined.

Lemma main_all_cohorts_skipped_witness :
  exists entries,
    length entries = length (groupby_perfil sample_cohort)
    /\ Forall (fun l => is_warning l = true) entries
    /\ main round2 no_text_number toy_fit_predict toy_centers toy_silhouette
            toy_factor_fit sample_cohort empty_main_state
       = (Ok tt,
          mk_main_state
            (mk_world (files (outputs empty_main_state))
                      (store (outputs empty_main_state))
                      (log (outputs empty_main_state) ++ entries)
                      (next_uuid (outputs empty_main_state)))
            (rollups empty_main_state)
            (main_log empty_main_state ++ [WarnNoClusters])).
Proof.
  apply (@main_all_cohorts_skipped round2 no_text_number toy_fit_predict toy_centers
           toy_silhouette toy_factor_fit sample_cohort empty_main_state).
  - discriminate.
  - intros perfil grupo H. vm_compute in H. destruct H as [E|[]].
    injection E as <- <-. left. vm_compute. lia.
Defined.


Lemma main_writes_three_views_witness :
  exists s',
    main round2 no_text_number toy_fit_predict toy_centers toy_silhouette
         toy_factor_fit full_cohort empty_main_state = (Ok tt, s')
    /\ outputs s' = snd full_run
    /\ main_log s' = main_log empty_main_state ++ [InfoDone]
    /\ (exists view,
          lookup_rollup "clusters_por_agencia.csv" (rollups s') = Some view
          /\ is_view by_agencia_nome (concat [full_out]) view)
    /\ (exists view,
          lookup_rollup "clusters_por_carteira.csv" (rollups s') = Some view
          /\ is_view by_carteira_nome (concat [full_out]) view)
    /\ (exists view,
          lookup_rollup "clusters_por_linha.csv" (rollups s') = Some view
          /\ is_view by_linha (concat [full_out]) view)
    /\ forall name,
         name <> "clusters_por_agencia.csv"%string ->
         name <> "clusters_por_carteira.csv"%string ->
         name <> "clusters_por_linha.csv"%string ->
         lookup_rollup name (rollups s')
         = lookup_rollup name (rollups empty_main_state).
Proof.
  apply (@main_writes_three_views round2 no_text_number toy_fit_predict toy_centers
           toy_silhouette toy_factor_fit full_cohort empty_main_state
           [full_out] (snd full_run)).
  - discriminate.
  - replace (groupby_perfil full_cohort) with [("PF"%string, full_cohort)]
      by (vm_compute; reflexivity).
    apply cohorts_table with (w1 := snd full_run).
    + vm_compute. reflexivity.
    + apply cohorts_none.
  - discriminate.
Defined.

Lemma prepare_segment_keeps_known_records_witness :
  map identity_of (data (prepare_segment no_text_number sample_cohort))
  = map raw_identity_of
        (filter (fun c =>
                   rating_known c
                   && is_some (to_numeric no_text_number (raw_cob_garantia c))
                   && is_some (to_numeric no_text_number (raw_atraso c)))%bool
                sample_cohort)
  /\ (length (data (prepare_segment no_text_number sample_cohort))
      <= length sample_cohort)%nat.
Proof.
  apply (@prepare_segment_keeps_known_records no_text_number sample_cohort).
  intros c s Hc E.
  destruct Hc as [<-|[<-|[<-|[]]]]; injection E as <-; reflexivity.
Defined.
